(** * Calendar / weather / news tools (my_agent/tools.py)

    A shallow embedding of the three tool functions of [tools.py] and of the
    credential helper they share, together with the part of the Python
    run-time they rely on (dynamically typed values as decoded from JSON,
    exceptions and [try]/[except], the file store, the HTTP client).

    Conventions.
    - A Python [str] is a [string]; one [ascii] stands for one character
      (code points below 256).
    - A Python [int] is a [Z]; a Python [float] is the rational [Q] that the
      float denotes exactly.  The floats that denote no rational ([nan] and
      the two infinities, which Python's decoder reads from the literals
      [NaN], [Infinity] and [-Infinity]) are not represented, and the two
      zeros are one: no statement below is about the order or the text of
      such a float.
    - A Python [dict] is the list of its items in insertion order; the keys
      of a dict decoded from JSON are strings and pairwise distinct.
    - Everything outside [tools.py] that the tools call (the OAuth library,
      the calendar provider, the HTTP servers) is a field of [world]; the
      theorems hold for every [world].
    - Standard output is a [console], which takes a line or raises.
      [get_weather_on] and [news_tool_on] are the two tools that print, on
      any console; [get_weather] and [news_tool] are the same two where the
      console takes the line. *)

From Stdlib Require Import ZArith QArith String Ascii List Bool Lia.
From Stdlib Require Import DecimalString.
From stdpp Require Import base option list gmap strings.

Local Open Scope string_scope.
Local Open Scope Z_scope.

(** ** Exceptions *)

(** The exception classes the tools can meet.  All of them derive from
    [Exception].  [HTTPError] derives from [RequestException]; the class
    [RequestException] below stands for every other exception of the
    [requests] package (connection errors, timeouts, ...), and
    [OtherException] for every remaining class (the OAuth library's and the
    calendar client's own errors, for instance).  [UnicodeEncodeError]
    derives from [ValueError]; no [except] clause of the tools names
    either. *)
Inductive exn_class :=
| HTTPError
| RequestException
| FileNotFoundError
| AttributeError
| KeyError
| IndexError
| TypeError
| ValueError
| UnicodeEncodeError
| OverflowError
| OtherException.

(** An exception object: its class and the text [str(e)] gives. *)
Record exn := Exn { exn_cls : exn_class; exn_msg : string }.

(** [isinstance(e, requests.exceptions.HTTPError)] *)
Definition is_HTTPError (e : exn) : bool :=
  match exn_cls e with HTTPError => true | _ => false end.

(** [isinstance(e, requests.exceptions.RequestException)] *)
Definition is_RequestException (e : exn) : bool :=
  match exn_cls e with HTTPError | RequestException => true | _ => false end.

(** The outcome of evaluating an expression: a value, or a raised
    exception. *)
Inductive res (A : Type) :=
| Return (a : A)
| Raise (e : exn).
Arguments Return {A} a.
Arguments Raise {A} e.

Definition rbind {A B} (r : res A) (k : A -> res B) : res B :=
  match r with
  | Return a => k a
  | Raise e => Raise e
  end.

Declare Scope res_scope.
Delimit Scope res_scope with res.
Notation "'let?' x := r 'in' k" := (rbind r (fun x => k))
  (at level 10, x name, r at level 100, k at level 200) : res_scope.

(** ** Values *)

#[local] Set Warnings "-register-all".

Inductive value :=
| VNone
| VBool (b : bool)
| VInt (z : Z)
| VFloat (q : Q)
| VStr (s : string)
| VList (l : list value)
| VTuple (l : list value)
| VDict (d : list (string * value)).

(** [type(v).__name__] *)
Definition type_name (v : value) : string :=
  match v with
  | VNone => "NoneType"
  | VBool _ => "bool"
  | VInt _ => "int"
  | VFloat _ => "float"
  | VStr _ => "str"
  | VList _ => "list"
  | VTuple _ => "tuple"
  | VDict _ => "dict"
  end.

(** The number a numeric value denotes ([bool] is a subclass of [int]). *)
Definition as_number (v : value) : option Q :=
  match v with
  | VBool b => Some (inject_Z (if b then 1 else 0))
  | VInt z => Some (inject_Z z)
  | VFloat q => Some q
  | _ => None
  end.

(** [d.get(k)] on the items of a dict, without the default. *)
Fixpoint assoc (k : string) (d : list (string * value)) : option value :=
  match d with
  | [] => None
  | (k', v) :: d' => if String.eqb k k' then Some v else assoc k d'
  end.

(** [bool(v)] *)
Definition truthy (v : value) : bool :=
  match v with
  | VNone => false
  | VBool b => b
  | VInt z => negb (z =? 0)
  | VFloat q => negb (Qeq_bool q 0)
  | VStr s => negb (String.eqb s "")
  | VList l | VTuple l => match l with [] => false | _ => true end
  | VDict d => match d with [] => false | _ => true end
  end.

(** [a == b] *)
Fixpoint py_eq (a b : value) {struct a} : bool :=
  match a, b with
  | VNone, VNone => true
  | VStr s, VStr t => String.eqb s t
  | VList l, VList m | VTuple l, VTuple m =>
      (fix go (l m : list value) {struct l} : bool :=
         match l, m with
         | [], [] => true
         | x :: l', y :: m' => py_eq x y && go l' m'
         | _, _ => false
         end) l m
  | VDict d, VDict e =>
      (length d =? length e)%nat &&
      (fix go (d : list (string * value)) : bool :=
         match d with
         | [] => true
         | (k, v) :: d' =>
             match assoc k e with
             | Some w => py_eq v w
             | None => false
             end && go d'
         end) d
  | _, _ =>
      match as_number a, as_number b with
      | Some p, Some q => Qeq_bool p q
      | _, _ => false
      end
  end.

Definition not_supported (op : string) (a b : value) : exn :=
  Exn TypeError ("'" +:+ op +:+ "' not supported between instances of '"
                 +:+ type_name a +:+ "' and '" +:+ type_name b +:+ "'").

(** Ordering of two values, as the rich comparisons [<], [<=], [>], [>=]
    see it; [op] is the operator being evaluated, for the message of the
    [TypeError].  Sequences compare at the first index where they differ
    under [==], else by length. *)
Fixpoint py_compare (op : string) (a b : value) {struct a} : res comparison :=
  let lex :=
    fix go (l m : list value) {struct l} : res comparison :=
      match l, m with
      | [], [] => Return Eq
      | [], _ :: _ => Return Lt
      | _ :: _, [] => Return Gt
      | x :: l', y :: m' => if py_eq x y then go l' m' else py_compare op x y
      end in
  match a, b with
  | VStr s, VStr t => Return (String.compare s t)
  | VList l, VList m | VTuple l, VTuple m => lex l m
  | _, _ =>
      match as_number a, as_number b with
      | Some p, Some q => Return (Qcompare p q)
      | _, _ => Raise (not_supported op a b)
      end
  end.

(** [a < b], [a > b] *)
Definition py_lt (a b : value) : res bool :=
  (let? c := py_compare "<" a b in
   Return match c with Lt => true | _ => false end)%res.

Definition py_gt (a b : value) : res bool :=
  (let? c := py_compare ">" a b in
   Return match c with Gt => true | _ => false end)%res.

(** ** Built-in operations on values *)

(** Decimal text of an integer: [str(z)]. *)
Definition str_of_Z (z : Z) : string := NilZero.string_of_int (Z.to_int z).

Definition quote (s : string) : string := "'" +:+ s +:+ "'".

(** [v.get(k)]: only a dict has the method; a missing key gives [None]. *)
Definition py_get (v : value) (k : string) : res value :=
  match v with
  | VDict d => Return (default VNone (assoc k d))
  | _ => Raise (Exn AttributeError
                  (quote (type_name v) +:+ " object has no attribute 'get'"))
  end.

(** [v.get(k, dflt)] *)
Definition py_get_default (v : value) (k : string) (dflt : value) : res value :=
  match v with
  | VDict d => Return (default dflt (assoc k d))
  | _ => Raise (Exn AttributeError
                  (quote (type_name v) +:+ " object has no attribute 'get'"))
  end.

Definition not_subscriptable (v : value) : exn :=
  Exn TypeError (quote (type_name v) +:+ " object is not subscriptable").

(** [v[k]] for a string key [k]. *)
Definition getitem_str (v : value) (k : string) : res value :=
  match v with
  | VDict d =>
      match assoc k d with
      | Some w => Return w
      | None => Raise (Exn KeyError (quote k))
      end
  | VList _ => Raise (Exn TypeError "list indices must be integers or slices, not str")
  | VTuple _ => Raise (Exn TypeError "tuple indices must be integers or slices, not str")
  | VStr _ => Raise (Exn TypeError "string indices must be integers, not 'str'")
  | _ => Raise (not_subscriptable v)
  end.

(** The characters of a string, each as a string of length one. *)
Fixpoint chars (s : string) : list string :=
  match s with
  | EmptyString => []
  | String c s' => String c EmptyString :: chars s'
  end.

(** [v[i]] for an index [i >= 0].  The keys of a decoded dict are strings,
    so an integer is never one of them. *)
Definition getitem_int (v : value) (i : nat) : res value :=
  match v with
  | VList l =>
      match nth_error l i with
      | Some w => Return w
      | None => Raise (Exn IndexError "list index out of range")
      end
  | VTuple l =>
      match nth_error l i with
      | Some w => Return w
      | None => Raise (Exn IndexError "tuple index out of range")
      end
  | VStr s =>
      match nth_error (chars s) i with
      | Some c => Return (VStr c)
      | None => Raise (Exn IndexError "string index out of range")
      end
  | VDict _ => Raise (Exn KeyError (str_of_Z (Z.of_nat i)))
  | _ => Raise (not_subscriptable v)
  end.

(** [len(v)] *)
Definition py_len (v : value) : res nat :=
  match v with
  | VList l | VTuple l => Return (length l)
  | VStr s => Return (String.length s)
  | VDict d => Return (length d)
  | _ => Raise (Exn TypeError
                  ("object of type " +:+ quote (type_name v) +:+ " has no len()"))
  end.

(** The items [iter(v)] yields: the elements of a sequence, the characters
    of a string, the keys of a dict. *)
Definition py_iter (v : value) : res (list value) :=
  match v with
  | VList l | VTuple l => Return l
  | VStr s => Return (map VStr (chars s))
  | VDict d => Return (map (fun kv => VStr (fst kv)) d)
  | _ => Raise (Exn TypeError
                  (quote (type_name v) +:+ " object is not iterable"))
  end.

(** The scan of [min]: keep the current item unless the next one is
    strictly smaller. *)
Fixpoint min_scan (cur : value) (rest : list value) : res value :=
  match rest with
  | [] => Return cur
  | x :: rest' =>
      (let? smaller := py_lt x cur in
       min_scan (if smaller then x else cur) rest')%res
  end.

Fixpoint max_scan (cur : value) (rest : list value) : res value :=
  match rest with
  | [] => Return cur
  | x :: rest' =>
      (let? greater := py_gt x cur in
       max_scan (if greater then x else cur) rest')%res
  end.

(** [min(v)] and [max(v)] with one iterable argument (messages of
    CPython 3.11). *)
Definition py_min (v : value) : res value :=
  (let? items := py_iter v in
   match items with
   | [] => Raise (Exn ValueError "min() arg is an empty sequence")
   | x :: rest => min_scan x rest
   end)%res.

Definition py_max (v : value) : res value :=
  (let? items := py_iter v in
   match items with
   | [] => Raise (Exn ValueError "max() arg is an empty sequence")
   | x :: rest => max_scan x rest
   end)%res.

(** [zip(a, b)] on the items of two iterables: stops at the shorter one. *)
Fixpoint zip_items (a b : list value) : list value :=
  match a, b with
  | x :: a', y :: b' => VTuple [x; y] :: zip_items a' b'
  | _, _ => []
  end.

(** [list(zip(a, b))] *)
Definition py_list_zip (a b : value) : res value :=
  (let? xs := py_iter a in
   let? ys := py_iter b in
   Return (VList (zip_items xs ys)))%res.

(** [s.split(sep)] for a separator of one character. *)
Fixpoint split_on (sep : ascii) (s : string) : list string :=
  match s with
  | EmptyString => [EmptyString]
  | String c s' =>
      if Ascii.eqb c sep then EmptyString :: split_on sep s'
      else match split_on sep s' with
           | h :: t => String c h :: t
           | [] => [String c EmptyString]
           end
  end.

(** [v.split(sep)]: only a [str] has the method here. *)
Definition py_split (v : value) (sep : ascii) : res (list string) :=
  match v with
  | VStr s => Return (split_on sep s)
  | _ => Raise (Exn AttributeError
                  (quote (type_name v) +:+ " object has no attribute 'split'"))
  end.

(** [l[i]] on a list of strings. *)
Definition nth_str (l : list string) (i : nat) : res string :=
  match nth_error l i with
  | Some s => Return s
  | None => Raise (Exn IndexError "list index out of range")
  end.

(** [range(start, stop, step)] for [step > 0]. *)
Fixpoint range_from (fuel start stop step : nat) : list nat :=
  match fuel with
  | O => []
  | S fuel' =>
      if (start <? stop)%nat
      then start :: range_from fuel' (start + step) stop step
      else []
  end.

Definition py_range (start stop step : nat) : list nat :=
  range_from stop start stop step.

(** [c.lower()] on one character: the ASCII capitals and the capitals of
    the Latin-1 block move down by 32. *)
Definition lower_ascii (c : ascii) : ascii :=
  let n := nat_of_ascii c in
  if ((65 <=? n) && (n <=? 90)
      || (192 <=? n) && (n <=? 222) && negb (n =? 215))%nat
  then ascii_of_nat (n + 32)
  else c.

(** [s.lower()] *)
Fixpoint lower (s : string) : string :=
  match s with
  | EmptyString => EmptyString
  | String c s' => String (lower_ascii c) (lower s')
  end.

(** [s.startswith(p)] *)
Fixpoint starts_with (p s : string) : bool :=
  match p, s with
  | EmptyString, _ => true
  | String a p', String b s' => Ascii.eqb a b && starts_with p' s'
  | String _ _, EmptyString => false
  end.

(** [sep.join(l)] *)
Fixpoint join (sep : string) (l : list string) : string :=
  match l with
  | [] => ""
  | [s] => s
  | s :: l' => s +:+ sep +:+ join sep l'
  end.

(** ** Text of values: [repr], [str] and the format [.2f] *)

(** What the tools use of the floating-point run-time, neither of which
    [tools.py] defines: [repr_float q] is the text [repr] gives for the
    float [q] (its shortest decimal that reads back as [q]), and
    [float_of_int z] is [float(z)], the float nearest to [z], which raises
    [OverflowError] beyond the range of floats. *)
Class float_runtime := {
  repr_float : Q -> string;
  float_of_int : Z -> res Q
}.

Definition hex_digit (n : nat) : ascii :=
  ascii_of_nat (if (n <? 10)%nat then 48 + n else 87 + n).

(** [c.isprintable()] for a character below 256. *)
Definition printable (c : ascii) : bool :=
  let n := nat_of_ascii c in
  ((32 <=? n) && (n <=? 126) || (161 <=? n) && negb (n =? 173))%nat.

Fixpoint contains_char (c : ascii) (s : string) : bool :=
  match s with
  | EmptyString => false
  | String c' s' => Ascii.eqb c c' || contains_char c s'
  end.

Fixpoint escape (q : ascii) (s : string) : string :=
  match s with
  | EmptyString => EmptyString
  | String c s' =>
      (if Ascii.eqb c q || Ascii.eqb c "\" then String "\" (String c EmptyString)
       else if Ascii.eqb c "009" then "\t"
       else if Ascii.eqb c "010" then "\n"
       else if Ascii.eqb c "013" then "\r"
       else if printable c then String c EmptyString
       else let n := nat_of_ascii c in
            String "\" (String "x" (String (hex_digit (n / 16))
                                      (String (hex_digit (n mod 16)) EmptyString))))
      +:+ escape q s'
  end.

Definition double_quote : ascii := ascii_of_nat 34.

(** [repr(s)] of a string: single quotes unless the string has a single
    quote and no double quote. *)
Definition repr_str (s : string) : string :=
  let q : ascii :=
    if contains_char "'" s && negb (contains_char double_quote s)
    then double_quote
    else "'"%char in
  String q (escape q s) +:+ String q EmptyString.

(** Nearest integer to [n / d] for [d > 0], ties to the even one. *)
Definition round_half_even (n : Z) (d : positive) : Z :=
  let f := n / Z.pos d in
  let r := 2 * (n mod Z.pos d) in
  if r <? Z.pos d then f
  else if Z.pos d <? r then f + 1
  else if Z.even f then f else f + 1.

(** [format(q, '.2f')] of a float: the decimal with two fractional digits
    nearest to the float's exact value. *)
Definition fixed2 (q : Q) : string :=
  let n := round_half_even (Qnum q * 100) (Qden q) in
  let a := Z.abs n in
  let frac := a mod 100 in
  (if Qnum q <? 0 then "-" else "")
  +:+ str_of_Z (a / 100) +:+ "."
  +:+ str_of_Z (frac / 10) +:+ str_of_Z (frac mod 10).

Section Text.
Context `{float_runtime}.

(** [repr(v)] *)
Fixpoint py_repr (v : value) : string :=
  match v with
  | VNone => "None"
  | VBool b => if b then "True" else "False"
  | VInt z => str_of_Z z
  | VFloat q => repr_float q
  | VStr s => repr_str s
  | VList l => "[" +:+ join ", " (map py_repr l) +:+ "]"
  | VTuple [x] => "(" +:+ py_repr x +:+ ",)"
  | VTuple l => "(" +:+ join ", " (map py_repr l) +:+ ")"
  | VDict d =>
      "{" +:+ join ", " (map (fun kv => repr_str (fst kv) +:+ ": "
                                        +:+ py_repr (snd kv)) d) +:+ "}"
  end.

(** [str(v)], which is also what [f"{v}"] inserts. *)
Definition py_str (v : value) : string :=
  match v with
  | VStr s => s
  | _ => py_repr v
  end.

(** [f"{v:.2f}"] *)
Definition format_2f (v : value) : res string :=
  match v with
  | VFloat q => Return (fixed2 q)
  | VInt z => (let? q := float_of_int z in Return (fixed2 q))%res
  | VBool b =>
      (let? q := float_of_int (if b then 1 else 0) in Return (fixed2 q))%res
  | VStr _ => Raise (Exn ValueError
                       "Unknown format code 'f' for object of type 'str'")
  | _ => Raise (Exn TypeError
                  ("unsupported format string passed to "
                   +:+ type_name v +:+ ".__format__"))
  end.

End Text.

(** ** The world outside [tools.py] *)

(** A [google.oauth2.credentials.Credentials] object, as far as
    [tools.py] looks at it: the access token, the property [expired], the
    attribute [refresh_token] ([None] or a string) and the text
    [to_json()] returns. *)
Record credentials := {
  token : option string;
  expired : bool;
  refresh_token : option string;
  to_json : string
}.

(** The property [creds.valid] of the library: there is a token and it
    has not expired. *)
Definition valid (c : credentials) : bool :=
  match token c with
  | Some _ => negb (expired c)
  | None => false
  end.

(** The truth value of [creds.refresh_token]. *)
Definition has_refresh_token (c : credentials) : bool :=
  match refresh_token c with
  | Some t => negb (String.eqb t "")
  | None => false
  end.

(** An [InstalledAppFlow], made from the text of the client-secret file. *)
Record flow := { client_config : string }.

(** The object [build('calendar', 'v3', credentials=creds)] returns. *)
Record service := { service_credentials : credentials }.

(** A [requests.Response]. [json_body] is what [response.json()] does. *)
Record response := {
  status_code : Z;
  reason : string;
  url : string;
  text : string;
  json_body : res value
}.

Definition params := list (string * value).

Record world := {
  (** [Credentials.from_authorized_user_file], on the text of the file *)
  from_authorized_user_info : string -> res credentials;
  (** [creds.refresh(Request())]: the credentials after the refresh *)
  refresh : credentials -> res credentials;
  (** [InstalledAppFlow.from_client_secrets_file], on the text of the file *)
  from_client_secrets : string -> res flow;
  (** [flow.run_local_server(port=0)] *)
  run_local_server : flow -> res credentials;
  (** [service.events().insert(calendarId=.., body=..).execute()] *)
  events_insert : service -> string -> value -> res value;
  (** [requests.get(url, params=..)] *)
  requests_get : string -> params -> res response
}.

(** What a run does to the world, in the order it happens. *)
Inductive event :=
| EPrint (line : string)
| ERefresh
| ERunLocalServer
| EWrite (path content : string)
| EInsert (calendarId : string) (body : value)
| EGet (url : string) (p : params).

(** The file store and the events so far. *)
Record state := {
  files : gmap string string;
  trace : list event
}.

(** ** Computations: state and exceptions *)

Definition M (A : Type) : Type := state -> res A * state.

Definition ret {A} (a : A) : M A := fun s => (Return a, s).

Definition raise {A} (e : exn) : M A := fun s => (Raise e, s).

Definition bind {A B} (m : M A) (k : A -> M B) : M B :=
  fun s =>
    match m s with
    | (Return a, s') => k a s'
    | (Raise e, s') => (Raise e, s')
    end.

Definition lift {A} (r : res A) : M A := fun s => (r, s).

Declare Scope M_scope.
Delimit Scope M_scope with M.
Notation "'let*' x := m 'in' k" := (bind m (fun x => k))
  (at level 10, x name, m at level 100, k at level 200) : M_scope.
Notation "m ;;; k" := (bind m (fun _ => k))
  (at level 100, right associativity) : M_scope.

(** [try: body  except Exception as e: handler e] *)
Definition try_except {A} (body : M A) (handler : exn -> M A) : M A :=
  fun s =>
    match body s with
    | (Return a, s') => (Return a, s')
    | (Raise e, s') => handler e s'
    end.

(** [try: x = first; rest  except Exception as e: handler], where the
    handler asks whether the local [x] was bound ['x' in locals()]. *)
Definition try_except_local {A B} (first : M A) (rest : A -> M B)
    (handler : option A -> exn -> M B) : M B :=
  fun s =>
    match first s with
    | (Raise e, s') => handler None e s'
    | (Return x, s') =>
        match rest x s' with
        | (Return b, s'') => (Return b, s'')
        | (Raise e, s'') => handler (Some x) e s''
        end
    end.

Definition emit (e : event) : M unit :=
  fun s => (Return tt, {| files := files s; trace := trace s ++ [e] |}).

(** Standard output, as far as [print] goes: writing a line returns, or
    it raises ([UnicodeEncodeError] when the encoding of the stream has no
    bytes for a character of the line, [OSError] when the stream is closed
    or broken). *)
Definition console : Type := string -> res unit.

(** A console that takes every line. *)
Definition accepting : console := fun _ => Return tt.

(** [print(line)] on the console [out]: the trace records the line once
    it is written. *)
Definition print (out : console) (line : string) : M unit :=
  bind (lift (out line)) (fun _ => emit (EPrint line)).

(** [os.path.exists(path)] *)
Definition path_exists (path : string) : M bool :=
  fun s => (Return (bool_decide (is_Some (files s !! path))), s).

(** The text of the file at [path], as [open(path).read()] gives it. *)
Definition read_file (path : string) : M string :=
  fun s =>
    match files s !! path with
    | Some content => (Return content, s)
    | None => (Raise (Exn FileNotFoundError
                        ("[Errno 2] No such file or directory: " +:+ quote path)), s)
    end.

(** [with open(path, 'w') as f: f.write(content)] *)
Definition write_file (path content : string) : M unit :=
  fun s => (Return tt, {| files := <[path := content]> (files s);
                          trace := trace s ++ [EWrite path content] |}).

(** [response.raise_for_status()] *)
Definition raise_for_status (r : response) : res unit :=
  if (400 <=? status_code r) && (status_code r <? 500)
  then Raise (Exn HTTPError (str_of_Z (status_code r) +:+ " Client Error: "
                             +:+ reason r +:+ " for url: " +:+ url r))
  else if (500 <=? status_code r) && (status_code r <? 600)
  then Raise (Exn HTTPError (str_of_Z (status_code r) +:+ " Server Error: "
                             +:+ reason r +:+ " for url: " +:+ url r))
  else Return tt.

(** ** tools.py *)

Definition nl : string := String "010" EmptyString.
Definition degree : string := String (ascii_of_nat 176) EmptyString.

Definition SCOPES : list string :=
  ["https://www.googleapis.com/auth/calendar.events"].
Definition TOKEN_FILE : string := "my_agent/token.json".
Definition CREDENTIALS_FILE : string := "my_agent/credentials.json".

Definition GEOCODING_URL : string :=
  "https://geocoding-api.open-meteo.com/v1/search".
Definition FORECAST_URL : string := "https://api.open-meteo.com/v1/forecast".

Definition NEWS_API_BASE_URL_EVERYTHING : string :=
  "https://newsapi.org/v2/everything".
Definition NEWS_API_BASE_URL_HEADLINES : string :=
  "https://newsapi.org/v2/top-headlines".
Definition NEWS_API_KEY : string := "7bf6895b452a4bf2b3f84c531e36dffd".

(** [class CreateEventInput(BaseModel)] *)
Record CreateEventInput := {
  summary : string;
  start_time : string;
  end_time : string;
  timezone : string
}.

(** [CreateEventInput(summary=.., start_time=.., end_time=.., timezone=..)],
    where the caller may leave [timezone] out. *)
Definition new_CreateEventInput (summary start_time end_time : string)
    (timezone : option string) : CreateEventInput :=
  {| summary := summary;
     start_time := start_time;
     end_time := end_time;
     timezone := default "Asia/Kolkata" timezone |}.

(** [class NewsToolInput(BaseModel)] *)
Record NewsToolInput := {
  query : string;
  max_articles : Z
}.

Definition new_NewsToolInput (query : option string) (max_articles : option Z)
    : NewsToolInput :=
  {| query := default "general" query;
     max_articles := default 5 max_articles |}.

Section Tools.
Context `{float_runtime} (W : world).

Local Open Scope M_scope.

(** The [else] branch of [get_calendar_service] (first-time login):
    the client-secret file must be there; the flow made from it opens
    the browser. *)
Definition first_time_login : M credentials :=
  let* secret_exists := path_exists CREDENTIALS_FILE in
  if negb secret_exists
  then raise (Exn FileNotFoundError
                ("Missing " +:+ CREDENTIALS_FILE
                 +:+ ". Please download it from Google Cloud Console."))
  else
    let* secret := read_file CREDENTIALS_FILE in
    let* fl := lift (from_client_secrets W secret) in
    emit ERunLocalServer ;;; lift (run_local_server W fl).

(** The body of [if not creds or not creds.valid:], entered with the
    credentials loaded so far ([None] when there is no token file):
    refresh or log in, then save. *)
Definition login (creds : option credentials) : M credentials :=
  let* creds' :=
    match creds with
    | Some c =>
        if expired c && has_refresh_token c
        then emit ERefresh ;;; lift (refresh W c)
        else first_time_login
    | None => first_time_login
    end in
  write_file TOKEN_FILE (to_json creds') ;;;
  ret creds'.

(** [get_calendar_service()] *)
Definition get_calendar_service : M service :=
  let* token_exists := path_exists TOKEN_FILE in
  let* creds :=
    if token_exists
    then let* content := read_file TOKEN_FILE in
         let* c := lift (from_authorized_user_info W content) in
         ret (Some c)
    else ret None in
  let* creds :=
    match creds with
    | Some c => if valid c then ret c else login creds
    | None => login creds
    end in
  ret {| service_credentials := creds |}.

(** The body of the event that [create_calendar_event] sends. *)
Definition event_body (input : CreateEventInput) : value :=
  VDict [("summary", VStr (summary input));
         ("start", VDict [("dateTime", VStr (start_time input));
                          ("timeZone", VStr (timezone input))]);
         ("end", VDict [("dateTime", VStr (end_time input));
                        ("timeZone", VStr (timezone input))])].

(** [service.events().insert(calendarId=.., body=..).execute()] *)
Definition insert_event (sv : service) (calendarId : string) (body : value)
    : M value :=
  emit (EInsert calendarId body) ;;; lift (events_insert W sv calendarId body).

(** The f-string of the success message, its fields read left to right. *)
Definition success_message (event : value) : res string :=
  (let? title := py_get event "summary" in
   let? start := py_get event "start" in
   let? date_time := py_get start "dateTime" in
   let? link := py_get event "htmlLink" in
   Return ("SUCCESS: Event '" +:+ py_str title +:+ "' scheduled on "
           +:+ py_str date_time +:+ ". Link: " +:+ py_str link))%res.

(** [create_calendar_event(input)] *)
Definition create_calendar_event (input : CreateEventInput) : M string :=
  try_except
    (let* sv := get_calendar_service in
     let event := event_body input in
     let* event := insert_event sv "primary" event in
     lift (success_message event))
    (fun e => ret ("ERROR: Could not create event. Details: " +:+ exn_msg e)).

(** [requests.get(url, params=p)] *)
Definition get (url : string) (p : params) : M response :=
  emit (EGet url p) ;;; lift (requests_get W url p).

Definition error_dict (message : string) : value :=
  VDict [("status", VStr "error"); ("error_message", VStr message)].

(** The loop [for i in range(0, len(times), 4): report += ...] over the
    indices still to visit. *)
Fixpoint sample_lines (times temperatures : value) (indices : list nat)
    (report : string) : res string :=
  match indices with
  | [] => Return report
  | i :: indices' =>
      (let? t := getitem_int times i in
       let? by_T := py_split t "T" in
       let? clock := nth_str by_T 1 in
       let? hour := nth_str (split_on ":" clock) 0 in
       let? temp := getitem_int temperatures i in
       sample_lines times temperatures indices'
         (report +:+ "  " +:+ hour +:+ "h: " +:+ py_str temp
          +:+ degree +:+ "C" +:+ nl))%res
  end.

(** Step 3 of [get_weather] (process and compile the report), from the
    decoded forecast to the returned dict. *)
Definition compile_report (found_city country latitude longitude : value)
    (forecast_data : value) : res value :=
  (let? hourly := getitem_str forecast_data "hourly" in
   let? times := getitem_str hourly "time" in
   let? hourly := getitem_str forecast_data "hourly" in
   let? temperatures := getitem_str hourly "temperature_2m" in
   let? min_temp := py_min temperatures in
   let? max_temp := py_max temperatures in
   let? lat := format_2f latitude in
   let? lon := format_2f longitude in
   let report :=
     "Hourly Temperature Forecast for " +:+ py_str found_city +:+ ", "
     +:+ py_str country +:+ " (Lat: " +:+ lat +:+ ", Lon: " +:+ lon
     +:+ ") for the next 24 hours:" +:+ nl
     +:+ "Min Temperature: " +:+ py_str min_temp +:+ degree +:+ "C" +:+ nl
     +:+ "Max Temperature: " +:+ py_str max_temp +:+ degree +:+ "C" +:+ nl
     +:+ "Hourly Data (Time: Temp):" +:+ nl in
   let? n := py_len times in
   let? report := sample_lines times temperatures (py_range 0 n 4) report in
   let? hourly_data := py_list_zip times temperatures in
   Return (VDict [("status", VStr "success");
                  ("city", found_city);
                  ("report", VStr report);
                  ("min_temperature_celsius", min_temp);
                  ("max_temperature_celsius", max_temp);
                  ("hourly_data", hourly_data)]))%res.

(** [geo_params] and [forecast_params] of [get_weather]. *)
Definition geo_params (city : string) : params :=
  [("name", VStr city); ("count", VInt 1);
   ("language", VStr "en"); ("format", VStr "json")].

Definition forecast_params (latitude longitude : value) : params :=
  [("latitude", latitude); ("longitude", longitude);
   ("hourly", VStr "temperature_2m"); ("forecast_days", VInt 1)].

(** The [try] block of [get_weather]. *)
Definition get_weather_body (city : string) : M value :=
  let* geo_response := get GEOCODING_URL (geo_params city) in
  lift (raise_for_status geo_response) ;;;
  let* geo_data := lift (json_body geo_response) in
  let* results := lift (py_get geo_data "results") in
  if negb (truthy results)
  then ret (error_dict ("Sorry, could not find coordinates for '"
                        +:+ city +:+ "'."))
  else
    let* location := lift (let? results := getitem_str geo_data "results" in
                           getitem_int results 0)%res in
    let* latitude := lift (getitem_str location "latitude") in
    let* longitude := lift (getitem_str location "longitude") in
    let* found_city := lift (getitem_str location "name") in
    let* country := lift (getitem_str location "country") in
    let* forecast_response :=
      get FORECAST_URL (forecast_params latitude longitude) in
    lift (raise_for_status forecast_response) ;;;
    let* forecast_data := lift (json_body forecast_response) in
    lift (compile_report found_city country latitude longitude forecast_data).

(** The three [except] clauses of [get_weather], tried in order. *)
Definition get_weather_handler (e : exn) : M value :=
  if is_HTTPError e
  then ret (error_dict ("HTTP Error: Could not fetch data. ("
                        +:+ exn_msg e +:+ ")"))
  else if is_RequestException e
  then ret (error_dict "Connection Error: Could not connect to the API server.")
  else ret (error_dict ("An unexpected error occurred: " +:+ exn_msg e)).

(** [get_weather(city)], with standard output [out].  The [print] of
    line 98 comes before the [try] block. *)
Definition get_weather_on (out : console) (city : string) : M value :=
  print out ("--- Tool: get_weather called for city: " +:+ city +:+ " ---") ;;;
  try_except (get_weather_body city) get_weather_handler.

(** [get_weather(city)] where standard output takes the line. *)
Definition get_weather (city : string) : M value :=
  get_weather_on accepting city.

(** The request [news_tool] makes for an input: the endpoint, the
    parameters and the description used in the messages. *)
Definition news_request (input : NewsToolInput) : string * params * string :=
  if String.eqb (lower (query input)) "general"
  then (NEWS_API_BASE_URL_HEADLINES,
        [("apiKey", VStr NEWS_API_KEY);
         ("country", VStr "us");
         ("pageSize", VInt (max_articles input))],
        "Top US Headlines")
  else (NEWS_API_BASE_URL_EVERYTHING,
        [("apiKey", VStr NEWS_API_KEY);
         ("q", VStr (query input));
         ("sortBy", VStr "publishedAt");
         ("pageSize", VInt (max_articles input))],
        "News about '" +:+ query input +:+ "'").

(** The loop [for i, article in enumerate(articles)] from index [i] on:
    the blocks appended to [output_list]. *)
Fixpoint format_articles (i : nat) (articles : list value)
    : res (list string) :=
  match articles with
  | [] => Return []
  | article :: articles' =>
      (let? title := py_get_default article "title" (VStr "N/A") in
       let? description := py_get_default article "description" (VStr "N/A") in
       let? blocks := format_articles (S i) articles' in
       Return (("--- Article " +:+ str_of_Z (Z.of_nat (i + 1)) +:+ " ---" +:+ nl
                +:+ "Title: " +:+ py_str title +:+ nl
                +:+ "Description: " +:+ py_str description) :: blocks))%res
  end.

(** [output_list] for the decoded response, when the articles are
    there. *)
Definition output_list_of (articles : value) : res (list string) :=
  (let? items := py_iter articles in format_articles 0 items)%res.

(** The [try] block of [news_tool] after [requests.get] has returned. *)
Definition news_tool_rest (query_desc : string) (resp : response) : M string :=
  lift (let? _ := raise_for_status resp in
        let? data := json_body resp in
        let? articles := py_get_default data "articles" (VList []) in
        if negb (truthy articles)
        then Return ("INFO: No news articles found for " +:+ query_desc +:+ ".")
        else
          let? output_list := output_list_of articles in
          let? n := py_len articles in
          let header := "Top " +:+ str_of_Z (Z.of_nat n) +:+ " Results for "
                        +:+ query_desc +:+ ":" in
          Return (header +:+ nl +:+ nl +:+ join (nl +:+ nl) output_list))%res.

(** The three [except] clauses of [news_tool]; [resp] is the local
    [response] when it is bound. *)
Definition news_tool_handler (resp : option response) (e : exn) : M string :=
  if is_HTTPError e
  then
    let status_code := match resp with
                       | Some r => str_of_Z (status_code r)
                       | None => "N/A"
                       end in
    let error_message := match resp with
                         | Some r => text r
                         | None => exn_msg e
                         end in
    ret ("ERROR: HTTP Error accessing News API. Status Code: " +:+ status_code
         +:+ ". Details: " +:+ error_message)
  else if is_RequestException e
  then ret "ERROR: Connection Error: Could not connect to the News API server."
  else ret ("ERROR: An unexpected error occurred in news_tool: " +:+ exn_msg e).

(** [news_tool(input)], with standard output [out].  The [print] of line
    198 comes before the [try] block. *)
Definition news_tool_on (out : console) (input : NewsToolInput) : M string :=
  print out ("--- Tool: news_tool called for query: " +:+ query input +:+ " ---") ;;;
  let '(api_url, p, query_desc) := news_request input in
  try_except_local (get api_url p) (news_tool_rest query_desc) news_tool_handler.

(** [news_tool(input)] where standard output takes the line. *)
Definition news_tool (input : NewsToolInput) : M string :=
  news_tool_on accepting input.

End Tools.

(** * Properties *)

(** ** Vocabulary of the statements *)

Definition missing_secret_error : exn :=
  Exn FileNotFoundError
      "Missing my_agent/credentials.json. Please download it from Google Cloud Console.".

Definition add_events (s : state) (new : list event) : state :=
  {| files := files s; trace := trace s ++ new |}.

(** The state after [content] has been saved to the token file, [new]
    being the events up to and including the write. *)
Definition saved (s : state) (new : list event) (content : string) : state :=
  {| files := <[TOKEN_FILE := content]> (files s); trace := trace s ++ new |}.

(** The token file is written in the events [new]. *)
Definition token_written (new : list event) : Prop :=
  exists content, In (EWrite TOKEN_FILE content) new.

(** The provider's answer lets the success message be built: it is a
    dict whose ["start"] is a dict. *)
Definition start_readable (event : value) : Prop :=
  exists d st, event = VDict d /\ assoc "start" d = Some (VDict st).

Section Vocabulary.
Context (W : world).

(** The token the store starts from: absent, unreadable, or loaded. *)
Inductive token_on_disk (s : state) : option (res credentials) -> Prop :=
| token_absent :
    files s !! TOKEN_FILE = None -> token_on_disk s None
| token_present content :
    files s !! TOKEN_FILE = Some content ->
    token_on_disk s (Some (from_authorized_user_info W content)).

(** A loaded token that line 30 sends to [creds.refresh]. *)
Definition refreshable (c : credentials) : bool :=
  expired c && has_refresh_token c.

(** There is no token the store can use without the client secret: no
    token file, or a token that is invalid and cannot be refreshed. *)
Definition no_usable_token (s : state) : Prop :=
  token_on_disk s None
  \/ exists c, token_on_disk s (Some (Return c))
               /\ valid c = false /\ refreshable c = false.

(** The runs of [get_calendar_service]: the result and the final state
    reached from [s], one rule per path through the function. *)
Inductive service_run (s : state) : res service -> state -> Prop :=
| run_token_unreadable e :
    token_on_disk s (Some (Raise e)) ->
    service_run s (Raise e) s
| run_token_valid c :
    token_on_disk s (Some (Return c)) -> valid c = true ->
    service_run s (Return {| service_credentials := c |}) s
| run_refreshed c c' :
    token_on_disk s (Some (Return c)) -> valid c = false ->
    refreshable c = true -> refresh W c = Return c' ->
    service_run s (Return {| service_credentials := c' |})
      (saved s [ERefresh; EWrite TOKEN_FILE (to_json c')] (to_json c'))
| run_refresh_failed c e :
    token_on_disk s (Some (Return c)) -> valid c = false ->
    refreshable c = true -> refresh W c = Raise e ->
    service_run s (Raise e) (add_events s [ERefresh])
| run_missing_secret :
    no_usable_token s -> files s !! CREDENTIALS_FILE = None ->
    service_run s (Raise missing_secret_error) s
| run_secret_unreadable secret e :
    no_usable_token s -> files s !! CREDENTIALS_FILE = Some secret ->
    from_client_secrets W secret = Raise e ->
    service_run s (Raise e) s
| run_login_failed secret fl e :
    no_usable_token s -> files s !! CREDENTIALS_FILE = Some secret ->
    from_client_secrets W secret = Return fl ->
    run_local_server W fl = Raise e ->
    service_run s (Raise e) (add_events s [ERunLocalServer])
| run_logged_in secret fl c' :
    no_usable_token s -> files s !! CREDENTIALS_FILE = Some secret ->
    from_client_secrets W secret = Return fl ->
    run_local_server W fl = Return c' ->
    service_run s (Return {| service_credentials := c' |})
      (saved s [ERunLocalServer; EWrite TOKEN_FILE (to_json c')] (to_json c')).

(** The exception comes out of one of the library calls of
    [get_calendar_service]. *)
Definition library_raised (e : exn) : Prop :=
  (exists content, from_authorized_user_info W content = Raise e)
  \/ (exists c, refresh W c = Raise e)
  \/ (exists secret, from_client_secrets W secret = Raise e)
  \/ (exists fl, run_local_server W fl = Raise e).

(** The event was created and confirmed: the service was obtained, the
    insert call returned, and its answer can be read. *)
Definition created (input : CreateEventInput) (s : state) : Prop :=
  exists sv s1 event,
    get_calendar_service W s = (Return sv, s1)
    /\ events_insert W sv "primary" (event_body input) = Return event
    /\ start_readable event.

End Vocabulary.

(** [body[side]["timeZone"]] *)
Definition time_zone_of (body : value) (side : string) : res value :=
  (let? part := getitem_str body side in getitem_str part "timeZone")%res.

(** A list of numbers ([int], [float], [bool]). *)
Definition all_numbers (v : value) : Prop :=
  exists l, v = VList l /\ Forall (fun x => is_Some (as_number x)) l.

(** The three classes of failure the [except] clauses of [get_weather]
    tell apart. *)
Inductive failure_class :=
| HttpFailure
| ConnectionFailure
| UnexpectedFailure.

Definition classify (e : exn) : failure_class :=
  if is_HTTPError e then HttpFailure
  else if is_RequestException e then ConnectionFailure
  else UnexpectedFailure.

(** The message [get_weather] reports for a failure. *)
Definition failure_message (e : exn) : string :=
  match classify e with
  | HttpFailure => "HTTP Error: Could not fetch data. (" +:+ exn_msg e +:+ ")"
  | ConnectionFailure => "Connection Error: Could not connect to the API server."
  | UnexpectedFailure => "An unexpected error occurred: " +:+ exn_msg e
  end.

Definition not_found_message (city : string) : string :=
  "Sorry, could not find coordinates for '" +:+ city +:+ "'.".

Definition weather_called (city : string) : event :=
  EPrint ("--- Tool: get_weather called for city: " +:+ city +:+ " ---").

(** The two series of a decoded forecast:
    [forecast_data['hourly']['time']] and
    [forecast_data['hourly']['temperature_2m']]. *)
Definition series_of (forecast_data : value) : res (value * value) :=
  (let? hourly := getitem_str forecast_data "hourly" in
   let? times := getitem_str hourly "time" in
   let? temperatures := getitem_str hourly "temperature_2m" in
   Return (times, temperatures))%res.

(** The decoded geocoding answer has no results: it is a dict whose
    ["results"] is absent, [None] or empty. *)
Definition no_results (geo_data : value) : Prop :=
  exists d, geo_data = VDict d
            /\ truthy (default VNone (assoc "results" d)) = false.

(** Equality of two strings up to the case of their letters. *)
Definition eq_ignore_case (a b : string) : bool :=
  String.eqb (lower a) (lower b).

Definition news_called (input : NewsToolInput) : event :=
  EPrint ("--- Tool: news_tool called for query: " +:+ query input +:+ " ---").

(** The message [news_tool] reports for a failure; [resp] is the
    response, when there is one. *)
Definition news_failure (resp : option response) (e : exn) : string :=
  match classify e with
  | HttpFailure =>
      "ERROR: HTTP Error accessing News API. Status Code: "
      +:+ match resp with
          | Some r => str_of_Z (status_code r)
          | None => "N/A"
          end
      +:+ ". Details: "
      +:+ match resp with
          | Some r => text r
          | None => exn_msg e
          end
  | ConnectionFailure =>
      "ERROR: Connection Error: Could not connect to the News API server."
  | UnexpectedFailure =>
      "ERROR: An unexpected error occurred in news_tool: " +:+ exn_msg e
  end.

(** The articles of a decoded answer: [data.get('articles', [])]. *)
Definition articles_of (data : value) : res value :=
  py_get_default data "articles" (VList []).

(** The text returned for a non-empty result. *)
Definition news_report (query_desc : string) (count : nat)
    (output_list : list string) : string :=
  let header := "Top " +:+ str_of_Z (Z.of_nat count) +:+ " Results for "
                +:+ query_desc +:+ ":" in
  header +:+ nl +:+ nl +:+ join (nl +:+ nl) output_list.

(** *** Vocabulary of the further properties *)

(** The four fields read from a location, in the order of the source. *)
Definition read_location (location : value)
    : res (value * value * value * value) :=
  (let? latitude := getitem_str location "latitude" in
   let? longitude := getitem_str location "longitude" in
   let? found_city := getitem_str location "name" in
   let? country := getitem_str location "country" in
   Return (latitude, longitude, found_city, country))%res.

(** A time stamp the report can show: a string with a "T" in it. *)
Definition timestamp (t : value) : Prop :=
  exists s, t = VStr s /\ contains_char "T" s = true.

Section Answers.
Context (W : world).

(** The geocoding request for [city] is answered, without an HTTP error,
    by a document whose first result is [location]. *)
Definition geocoded (city : string) (location : value) : Prop :=
  exists resp geo_data results,
    requests_get W GEOCODING_URL (geo_params city) = Return resp
    /\ raise_for_status resp = Return tt
    /\ json_body resp = Return geo_data
    /\ getitem_str geo_data "results" = Return results
    /\ truthy results = true
    /\ getitem_int results 0 = Return location.

(** The forecast request for the coordinates is answered, without an
    HTTP error, by [forecast_data]. *)
Definition forecast_answered (latitude longitude forecast_data : value) : Prop :=
  exists resp,
    requests_get W FORECAST_URL (forecast_params latitude longitude) = Return resp
    /\ raise_for_status resp = Return tt
    /\ json_body resp = Return forecast_data.

End Answers.

(** The endpoint, the parameters and the description of the request. *)
Definition news_url (input : NewsToolInput) : string :=
  fst (fst (news_request input)).

Definition news_params (input : NewsToolInput) : params :=
  snd (fst (news_request input)).

Definition news_desc (input : NewsToolInput) : string :=
  snd (news_request input).

(** The news request of [input] is answered, without an HTTP error, by
    the document [data]. *)
Definition news_answered (W : world) (input : NewsToolInput) (data : value)
    : Prop :=
  exists resp,
    requests_get W (news_url input) (news_params input) = Return resp
    /\ raise_for_status resp = Return tt
    /\ json_body resp = Return data.

(** The block of the article with items [d] at position [k], counted
    from 0: a missing title or description reads "N/A". *)
Definition article_block `{float_runtime} (k : nat) (d : list (string * value))
    : string :=
  "--- Article " +:+ str_of_Z (Z.of_nat (k + 1)) +:+ " ---" +:+ nl
  +:+ "Title: " +:+ py_str (default (VStr "N/A") (assoc "title" d)) +:+ nl
  +:+ "Description: " +:+ py_str (default (VStr "N/A") (assoc "description" d)).

Definition not_a_dict (a : value) : Prop := forall d, a <> VDict d.

(** [q] spells [word] up to the case of its letters. *)
Definition spells (word q : string) : Prop :=
  Forall2 (fun c l => c = l \/ (nat_of_ascii c + 32)%nat = nat_of_ascii l)
          (list_ascii_of_string q) (list_ascii_of_string word).

Definition small_letter (l : ascii) : Prop :=
  (97 <= nat_of_ascii l <= 122)%nat.

(** ** Reference inputs

    A float run-time for the examples, and the pieces the example worlds
    are made of.  The run-time prints a float as its exact decimal
    expansion, which is its [repr] when the expansion is short (4.5,
    -0.125), and takes an integer to the float of the same value, which
    exists for every integer below 2^53. *)

Fixpoint fraction_digits (fuel : nat) (r d : Z) : string :=
  match fuel with
  | O => ""
  | S fuel' =>
      if r =? 0 then ""
      else str_of_Z (10 * r / d) +:+ fraction_digits fuel' (10 * r mod d) d
  end.

Definition decimal_expansion (q : Q) : string :=
  let d := Z.pos (Qden q) in
  let a := Z.abs (Qnum q) in
  (if Qnum q <? 0 then "-" else "")
  +:+ str_of_Z (a / d) +:+ "."
  +:+ (if a mod d =? 0 then "0" else fraction_digits 17 (a mod d) d).

#[local] Instance example_runtime : float_runtime := {|
  repr_float := decimal_expansion;
  float_of_int := fun z => Return (inject_Z z)
|}.

Definition ok_response (body : value) : response :=
  {| status_code := 200; reason := "OK"; url := ""; text := "";
     json_body := Return body |}.

Definition valid_token : credentials :=
  {| token := Some "t1"; expired := false; refresh_token := Some "r1";
     to_json := "{token: t1, refresh_token: r1}" |}.

Definition expired_token : credentials :=
  {| token := Some "t0"; expired := true; refresh_token := Some "r1";
     to_json := "{token: t0, refresh_token: r1}" |}.

Definition dead_token : credentials :=
  {| token := Some "t0"; expired := true; refresh_token := None;
     to_json := "{token: t0}" |}.

(** A world whose token file parses to [loaded], whose refresh gives
    [valid_token], whose calendar answers [inserted] and whose HTTP
    servers answer [geo] to the geocoding request and [other] to every
    other one. *)
Definition example_world (loaded : credentials) (inserted : res value)
    (geo other : res response) : world :=
  {| from_authorized_user_info := fun _ => Return loaded;
     refresh := fun _ => Return valid_token;
     from_client_secrets := fun c => Return {| client_config := c |};
     run_local_server := fun _ => Return valid_token;
     events_insert := fun _ _ _ => inserted;
     requests_get := fun u _ => if String.eqb u GEOCODING_URL then geo else other |}.

Definition with_token : state :=
  {| files := {[ TOKEN_FILE := "saved" ]}; trace := [] |}.

Definition no_files : state := {| files := ∅; trace := [] |}.

Definition team_meeting : CreateEventInput :=
  new_CreateEventInput "Team Meeting" "2025-12-01T10:00:00"
                       "2025-12-01T11:00:00" None.

(** A calendar that answers the insert with an event without a start. *)
Definition bare_answer : value :=
  VDict [("summary", VStr "Team Meeting");
         ("htmlLink", VStr "https://www.google.com/calendar/event?eid=1")].

Definition bare_answer_world : world :=
  example_world valid_token (Return bare_answer) (Raise (Exn RequestException ""))
                (Raise (Exn RequestException "")).

(** A token file with a token that is expired and has no refresh token,
    and no client-secret file. *)
Definition dead_token_world : world :=
  example_world dead_token (Return (VDict [])) (Raise (Exn RequestException ""))
                (Raise (Exn RequestException "")).

(** A token file with an expired token that has a refresh token. *)
Definition expired_token_world : world :=
  example_world expired_token (Return (VDict [])) (Raise (Exn RequestException ""))
                (Raise (Exn RequestException "")).

Definition london : value :=
  VDict [("results",
          VList [VDict [("name", VStr "London");
                        ("country", VStr "United Kingdom");
                        ("latitude", VFloat (103 # 2));
                        ("longitude", VFloat (- 1 # 8))]])].

Definition forecast_of (times temperatures : list value) : value :=
  VDict [("hourly", VDict [("time", VList times);
                           ("temperature_2m", VList temperatures)])].

(** A world where the geocoder knows London and the forecast is [forecast]. *)
Definition london_world (forecast : value) : world :=
  example_world valid_token (Return (VDict []))
                (Return (ok_response london)) (Return (ok_response forecast)).

Definition two_hours : list value :=
  [VStr "2025-01-01T00:00"; VStr "2025-01-01T01:00"].

Definition four_hours : list value :=
  [VStr "2025-01-01T00:00"; VStr "2025-01-01T01:00";
   VStr "2025-01-01T02:00"; VStr "2025-01-01T03:00"].

Definition four_temperatures : list value :=
  [VInt 5; VFloat (9 # 2); VInt 4; VFloat (11 # 2)].

Definition article (title description : string) : value :=
  VDict [("title", VStr title); ("description", VStr description)].

(** A world whose news provider answers every request with [answer]. *)
Definition news_world (answer : value) : world :=
  example_world valid_token (Return (VDict []))
                (Raise (Exn RequestException "")) (Return (ok_response answer)).

Definition two_articles : value :=
  VDict [("articles", VList [article "First" "One"; article "Second" "Two"])].

(** The blocks [news_tool] makes of [two_articles]. *)
Definition two_blocks : list string :=
  ["--- Article 1 ---" +:+ nl +:+ "Title: First" +:+ nl +:+ "Description: One";
   "--- Article 2 ---" +:+ nl +:+ "Title: Second" +:+ nl +:+ "Description: Two"].

Definition one_bitcoin : NewsToolInput :=
  new_NewsToolInput (Some "bitcoin") (Some 1).

Definition general_five : NewsToolInput := new_NewsToolInput None None.

(** *** Further reference inputs *)

(** A token file and a client-secret file. *)
Definition with_both : state :=
  {| files := {[ TOKEN_FILE := "garbled"; CREDENTIALS_FILE := "secret" ]};
     trace := [] |}.

(** A world whose library cannot read the token file. *)
Definition broken_token_world : world :=
  {| from_authorized_user_info :=
       fun _ => Raise (Exn ValueError "Expecting value: line 1 column 1 (char 0)");
     refresh := fun _ => Return valid_token;
     from_client_secrets := fun c => Return {| client_config := c |};
     run_local_server := fun _ => Return valid_token;
     events_insert := fun _ _ _ => Return bare_answer;
     requests_get := fun _ _ => Raise (Exn RequestException "") |}.

(** A world whose library reads back what [to_json] wrote for
    [valid_token], and reads every other text as the expired token. *)
Definition round_trip_world : world :=
  {| from_authorized_user_info :=
       fun content => if String.eqb content (to_json valid_token)
                      then Return valid_token else Return expired_token;
     refresh := fun _ => Return valid_token;
     from_client_secrets := fun c => Return {| client_config := c |};
     run_local_server := fun _ => Return valid_token;
     events_insert := fun _ _ _ => Return bare_answer;
     requests_get := fun _ _ => Raise (Exn RequestException "") |}.

Definition status_response (code : Z) (why body : string) : response :=
  {| status_code := code; reason := why;
     url := "https://example.org/"; text := body;
     json_body := Raise (Exn RequestException "Expecting value") |}.

(** A world whose servers answer every request with the status 404. *)
Definition not_found_world : world :=
  example_world valid_token (Return bare_answer)
                (Return (status_response 404 "Not Found" "no such page"))
                (Return (status_response 404 "Not Found" "no such page")).

(** A world whose servers cannot be reached. *)
Definition offline_world : world :=
  example_world valid_token (Return bare_answer)
                (Raise (Exn RequestException "Max retries exceeded"))
                (Raise (Exn RequestException "Max retries exceeded")).

Definition london_location : value :=
  VDict [("name", VStr "London"); ("country", VStr "United Kingdom");
         ("latitude", VFloat (103 # 2)); ("longitude", VFloat (- 1 # 8))].

(** The same first result as [london], followed by a second London. *)
Definition two_londons : value :=
  VDict [("results",
          VList [london_location;
                 VDict [("name", VStr "London"); ("country", VStr "Canada");
                        ("latitude", VFloat (43 # 1));
                        ("longitude", VFloat (- 325 # 4))]]);
         ("generationtime_ms", VFloat (1 # 2))].

Definition two_londons_world (forecast : value) : world :=
  example_world valid_token (Return (VDict []))
                (Return (ok_response two_londons)) (Return (ok_response forecast)).

(** A first result without coordinates. *)
Definition nameless_world : world :=
  example_world valid_token (Return (VDict []))
                (Return (ok_response
                           (VDict [("results",
                                    VList [VDict [("name", VStr "Atlantis")]])])))
                (Raise (Exn RequestException "")).

Definition two_dicts : list (list (string * value)) :=
  [[("title", VStr "First"); ("description", VStr "One")];
   [("title", VStr "Second")]].

(** A standard output that encodes ASCII only, as under
    [PYTHONIOENCODING=ascii]: [print] raises at the first run of
    characters beyond 127, naming the character when the run has one and
    the positions of the run when it has more. *)
Fixpoint non_ascii_run (s : string) : nat :=
  match s with
  | EmptyString => 0%nat
  | String c s' =>
      if (127 <? nat_of_ascii c)%nat then S (non_ascii_run s') else 0%nat
  end.

Fixpoint ascii_encode (i : nat) (s : string) : res unit :=
  match s with
  | EmptyString => Return tt
  | String c s' =>
      if (nat_of_ascii c <? 128)%nat then ascii_encode (S i) s'
      else
        let n := nat_of_ascii c in
        Raise (Exn UnicodeEncodeError
                 (match non_ascii_run s' with
                  | O =>
                      "'ascii' codec can't encode character '\x"
                      +:+ String (hex_digit (n / 16))
                            (String (hex_digit (n mod 16)) EmptyString)
                      +:+ "' in position " +:+ str_of_Z (Z.of_nat i)
                  | S k =>
                      "'ascii' codec can't encode characters in position "
                      +:+ str_of_Z (Z.of_nat i) +:+ "-"
                      +:+ str_of_Z (Z.of_nat (i + S k))
                  end +:+ ": ordinal not in range(128)"))
  end.

Definition ascii_console : console := ascii_encode 0.

(** The city Zurich in its German spelling, with u-umlaut (code point
    252) as second character. *)
Definition zurich : string := String "Z" (String (ascii_of_nat 252) "rich").

(** ** Generic facts *)

(** A string cannot start with two texts that differ in their first
    character. *)
Lemma starts_with_first_char (a b : ascii) (p q s : string) :
  a <> b -> starts_with (String a p) s = true ->
  starts_with (String b q) s = false.
Proof.
  intros Hne. destruct s as [|c s]; simpl; [done|].
  destruct (Ascii.eqb_spec a c) as [->|]; [|done].
  intros _. by destruct (Ascii.eqb_spec b c) as [->|].
Qed.

(** Unfold the monad, and nothing else. *)
Ltac run :=
  cbv beta iota delta
    [bind lift ret raise emit print accepting try_except try_except_local
     read_file write_file rbind negb].

(** ** Sequences and numbers *)

Lemma length_chars (s : string) : length (chars s) = String.length s.
Proof. induction s as [|c s IH]; simpl; congruence. Qed.

(** [len] counts what [iter] yields. *)
Lemma py_iter_len (v : value) (items : list value) :
  py_iter v = Return items -> py_len v = Return (length items).
Proof.
  destruct v; simpl; intros [= <-]; try done.
  - by rewrite length_map, length_chars.
  - by rewrite length_map.
Qed.

Lemma zip_items_length (a b : list value) :
  length (zip_items a b) = Nat.min (length a) (length b).
Proof.
  revert b. induction a as [|x a IH]; intros [|y b]; simpl; try done.
  by rewrite IH.
Qed.

Lemma py_compare_numbers (op : string) (a b : value) (p q : Q) :
  as_number a = Some p -> as_number b = Some q ->
  py_compare op a b = Return (Qcompare p q).
Proof.
  intros Ha Hb. destruct a; try discriminate Ha;
    destruct b; try discriminate Hb; simpl in *; congruence.
Qed.

(** On numbers the scan of [min] ends, with a number that is at most the
    one it started from. *)
Lemma min_scan_numbers (rest : list value) (cur : value) (qc : Q) :
  as_number cur = Some qc ->
  Forall (fun x => is_Some (as_number x)) rest ->
  exists m qm, min_scan cur rest = Return m
               /\ as_number m = Some qm /\ Qle qm qc.
Proof.
  revert cur qc. induction rest as [|x rest IH]; intros cur qc Hcur Hrest.
  - exists cur, qc. simpl. split; [done|]. split; [done|]. apply Qle_refl.
  - apply Forall_cons in Hrest as [[qx Hx] Hrest]. simpl.
    unfold py_lt. rewrite (py_compare_numbers _ _ _ _ _ Hx Hcur). simpl.
    destruct (Qcompare qx qc) eqn:Hcmp.
    + by apply IH.
    + destruct (IH x qx Hx Hrest) as (m & qm & Hm & Hqm & Hle).
      exists m, qm. split; [done|]. split; [done|].
      apply Qle_trans with qx; [done|]. apply Qlt_le_weak. by apply Qlt_alt.
    + by apply IH.
Qed.

Lemma max_scan_numbers (rest : list value) (cur : value) (qc : Q) :
  as_number cur = Some qc ->
  Forall (fun x => is_Some (as_number x)) rest ->
  exists m qm, max_scan cur rest = Return m
               /\ as_number m = Some qm /\ Qle qc qm.
Proof.
  revert cur qc. induction rest as [|x rest IH]; intros cur qc Hcur Hrest.
  - exists cur, qc. simpl. split; [done|]. split; [done|]. apply Qle_refl.
  - apply Forall_cons in Hrest as [[qx Hx] Hrest]. simpl.
    unfold py_gt. rewrite (py_compare_numbers _ _ _ _ _ Hx Hcur). simpl.
    destruct (Qcompare qx qc) eqn:Hcmp.
    + by apply IH.
    + by apply IH.
    + destruct (IH x qx Hx Hrest) as (m & qm & Hm & Hqm & Hle).
      exists m, qm. split; [done|]. split; [done|].
      apply Qle_trans with qx; [|done]. apply Qlt_le_weak. by apply Qgt_alt.
Qed.

(** ** The credential store *)

Section Credentials.
Context (W : world).

Lemma path_exists_eq (p : string) (s : state) :
  path_exists p s = (Return (if files s !! p is Some _ then true else false), s).
Proof. unfold path_exists. by destruct (files s !! p). Qed.

Lemma first_time_login_run (s : state) (r : res credentials) (s' : state) :
  no_usable_token W s ->
  (let* c := first_time_login W in
   write_file TOKEN_FILE (to_json c) ;;; ret c)%M s = (r, s') ->
  service_run W s (match r with
                 | Return c => Return {| service_credentials := c |}
                 | Raise e => Raise e
                 end) s'.
Proof.
  intros Hno. unfold first_time_login. run. rewrite path_exists_eq.
  destruct (files s !! CREDENTIALS_FILE) as [secret|] eqn:Hsecret; run.
  - rewrite Hsecret.
    destruct (from_client_secrets W secret) as [fl|e] eqn:Hfl.
    + destruct (run_local_server W fl) as [c'|e] eqn:Hrun;
        cbn [files trace]; intros [= <- <-].
      * rewrite <- app_assoc. by eapply run_logged_in.
      * by eapply run_login_failed.
    + intros [= <- <-]. by eapply run_secret_unreadable.
  - intros [= <- <-]. by apply run_missing_secret.
Qed.

(** [login] ends in one of the last six rules. *)
Lemma login_run (s : state) (loaded : option credentials)
    (r : res credentials) (s' : state) :
  match loaded with
  | Some c => token_on_disk W s (Some (Return c)) /\ valid c = false
  | None => token_on_disk W s None
  end ->
  login W loaded s = (r, s') ->
  service_run W s (match r with
                 | Return c => Return {| service_credentials := c |}
                 | Raise e => Raise e
                 end) s'.
Proof.
  intros Hloaded. unfold login. destruct loaded as [c|].
  - destruct Hloaded as [Hc Hinvalid].
    fold (refreshable c). destruct (refreshable c) eqn:Hrefreshable.
    + run. destruct (refresh W c) as [c'|e] eqn:Hrefresh;
        cbn [files trace]; intros [= <- <-].
      * rewrite <- app_assoc. by eapply run_refreshed.
      * by eapply run_refresh_failed.
    + apply first_time_login_run. right. by exists c.
  - apply first_time_login_run. by left.
Qed.

(** Every run of [get_calendar_service] follows one of the rules. *)
Lemma get_calendar_service_run (s : state) (r : res service) (s' : state) :
  get_calendar_service W s = (r, s') -> service_run W s r s'.
Proof.
  unfold get_calendar_service. unfold bind at 1 2. rewrite path_exists_eq.
  destruct (files s !! TOKEN_FILE) as [content|] eqn:Htoken.
  - pose proof (token_present W s content Htoken) as Hdisk.
    run. rewrite Htoken.
    destruct (from_authorized_user_info W content) as [c|e] eqn:Hload.
    + destruct (valid c) eqn:Hvalid.
      * intros [= <- <-]. by apply run_token_valid.
      * destruct (login W (Some c) s) as [rl sl] eqn:Hlogin.
        apply (login_run s (Some c)) in Hlogin; [|done].
        destruct rl; by intros [= <- <-].
    + intros [= <- <-]. by apply run_token_unreadable.
  - run.
    destruct (login W None s) as [rl sl] eqn:Hlogin.
    apply (login_run s None) in Hlogin; [|by apply token_absent].
    destruct rl; by intros [= <- <-].
Qed.

Lemma token_on_disk_fun (s : state) (a b : option (res credentials)) :
  token_on_disk W s a -> token_on_disk W s b -> a = b.
Proof. destruct 1; destruct 1; congruence. Qed.

Lemma usable_or_not (s : state) (c : credentials) :
  token_on_disk W s (Some (Return c)) -> no_usable_token W s ->
  valid c = false /\ refreshable c = false.
Proof.
  intros Hc [Hnone|(c' & Hc' & ? & ?)].
  - by pose proof (token_on_disk_fun _ _ _ Hc Hnone).
  - pose proof (token_on_disk_fun _ _ _ Hc Hc') as [= ->]. done.
Qed.

Lemma unreadable_not_unusable (s : state) (e : exn) :
  token_on_disk W s (Some (Raise e)) -> no_usable_token W s -> False.
Proof.
  intros He [Hnone|(c' & Hc' & ? & ?)].
  - by pose proof (token_on_disk_fun _ _ _ He Hnone).
  - by pose proof (token_on_disk_fun _ _ _ He Hc').
Qed.

Ltac clash :=
  repeat match goal with
    | Hc : token_on_disk W ?s (Some (Return ?c)), Hno : no_usable_token W ?s |- _ =>
        destruct (usable_or_not s c Hc Hno); clear Hno
    | He : token_on_disk W ?s (Some (Raise ?e)), Hno : no_usable_token W ?s |- _ =>
        destruct (unreadable_not_unusable s e He Hno)
    | Ha : token_on_disk W ?s ?a, Hb : token_on_disk W ?s ?b |- _ =>
        pose proof (token_on_disk_fun s a b Ha Hb); clear Hb
    end;
  simplify_eq;
  repeat (match goal with
          | Ha : ?x = _, Hb : ?x = _ |- _ => rewrite Ha in Hb
          end; simplify_eq);
  try congruence.

(** The rules leave no choice: a state has one run. *)
Lemma service_run_fun (s : state) (r1 r2 : res service) (s1 s2 : state) :
  service_run W s r1 s1 -> service_run W s r2 s2 -> r1 = r2 /\ s1 = s2.
Proof. destruct 1; destruct 1; clash; done. Qed.

Lemma get_calendar_service_eq (s : state) (r : res service) (s' : state) :
  service_run W s r s' -> get_calendar_service W s = (r, s').
Proof.
  intros Hrun. destruct (get_calendar_service W s) as [r0 s0] eqn:Hget.
  apply get_calendar_service_run in Hget.
  by destruct (service_run_fun _ _ _ _ _ Hget Hrun) as [-> ->].
Qed.

(** C5, as amended.  [get_calendar_service] itself raises the
    missing-client-secret error exactly when the client-secret file is
    absent and there is no usable cached token, that is, no token file, or
    a token that is invalid and cannot be refreshed; the state is then
    untouched (nothing was sent, nothing written).  Every other exception
    it raises comes out of a library call.  With a cached valid token it
    returns the service made from that token, and raises nothing. *)
Theorem missing_secret_exactly (s : state) :
  (no_usable_token W s -> files s !! CREDENTIALS_FILE = None ->
   get_calendar_service W s = (Raise missing_secret_error, s))
  /\ (forall e s', get_calendar_service W s = (Raise e, s') ->
        (no_usable_token W s /\ files s !! CREDENTIALS_FILE = None
         /\ e = missing_secret_error /\ s' = s)
        \/ library_raised W e)
  /\ (forall c, token_on_disk W s (Some (Return c)) -> valid c = true ->
        get_calendar_service W s = (Return {| service_credentials := c |}, s)).
Proof.
  split; [|split].
  - intros Hno Hsecret. apply get_calendar_service_eq.
    by apply run_missing_secret.
  - intros e s' Hget. apply get_calendar_service_run in Hget.
    unfold library_raised. inversion Hget; subst; eauto 8.
    inversion H0; subst; eauto 8.
  - intros c Hc Hvalid. apply get_calendar_service_eq.
    by apply run_token_valid.
Qed.

Lemma quiet_run (new : list event) (r : res service)
    (f : gmap string string) :
  (forall content, ~ In (EWrite TOKEN_FILE content) new) ->
  ((In ERefresh new \/ In ERunLocalServer new) -> forall sv, r <> Return sv) ->
  (token_written new <->
     (In ERefresh new \/ In ERunLocalServer new) /\ exists sv, r = Return sv)
  /\ (forall sv, r = Return sv -> token_written new ->
       f = <[TOKEN_FILE := to_json (service_credentials sv)]> f
       /\ In (EWrite TOKEN_FILE (to_json (service_credentials sv))) new)
  /\ (~ token_written new -> f = f).
Proof.
  intros Hnone Hfail.
  assert (Hdry : ~ token_written new) by (intros (content & Hin); by eapply Hnone).
  split; [split|split].
  - intros Hw. by destruct Hdry.
  - intros (Hev & sv & ->). by destruct (Hfail Hev sv).
  - intros sv _ Hw. by destruct Hdry.
  - done.
Qed.

Lemma saving_run (how : event) (c : credentials) (f : gmap string string) :
  how = ERefresh \/ how = ERunLocalServer ->
  let new := [how; EWrite TOKEN_FILE (to_json c)] in
  let r := Return {| service_credentials := c |} in
  (token_written new <->
     (In ERefresh new \/ In ERunLocalServer new) /\ exists sv, r = Return sv)
  /\ (forall sv, r = Return sv -> token_written new ->
       <[TOKEN_FILE := to_json c]> f
       = <[TOKEN_FILE := to_json (service_credentials sv)]> f
       /\ In (EWrite TOKEN_FILE (to_json (service_credentials sv))) new)
  /\ (~ token_written new -> <[TOKEN_FILE := to_json c]> f = f).
Proof.
  intros Hhow new r.
  assert (Hw : token_written new) by (eexists; right; by left).
  split; [split|split].
  - intros _. split; [|by eexists].
    destruct Hhow as [-> | ->]; [left | right]; by left.
  - done.
  - intros sv [= <-] _. split; [done|]. right. by left.
  - intros Hnot. by destruct Hnot.
Qed.

(** C8.  The token file is written exactly when a refresh or the
    interactive flow was carried out and delivered credentials, and it
    then holds those credentials ([to_json]) in place of what it held;
    otherwise no file changes.  A valid token loaded from disk leaves the
    state as it was.  A loaded token that is expired and has a refresh token
    is refreshed, without the interactive flow, and the refreshed token is
    saved. *)
Theorem token_file_written (s : state) :
  (forall r s', get_calendar_service W s = (r, s') ->
     exists new : list event, trace s' = (trace s ++ new)%list
       /\ (token_written new <->
            (In ERefresh new \/ In ERunLocalServer new)
            /\ exists sv, r = Return sv)
       /\ (forall sv, r = Return sv -> token_written new ->
            files s' = <[TOKEN_FILE := to_json (service_credentials sv)]> (files s)
            /\ In (EWrite TOKEN_FILE (to_json (service_credentials sv))) new)
       /\ (~ token_written new -> files s' = files s))
  /\ (forall c, token_on_disk W s (Some (Return c)) -> valid c = true ->
        get_calendar_service W s = (Return {| service_credentials := c |}, s))
  /\ (forall c c', token_on_disk W s (Some (Return c)) ->
        expired c = true -> has_refresh_token c = true ->
        refresh W c = Return c' ->
        get_calendar_service W s =
          (Return {| service_credentials := c' |},
           saved s [ERefresh; EWrite TOKEN_FILE (to_json c')] (to_json c'))).
Proof.
  split; [|split].
  - intros r s' Hget. apply get_calendar_service_run in Hget.
    unfold token_written.
    inversion Hget; subst.
    1, 2, 5, 6: exists []; rewrite app_nil_r; (split; [done|]);
      apply quiet_run; simpl; tauto.
    2, 3: eexists [_]; (split; [done|]); apply quiet_run; simpl;
      [intros ? [?|[]]; congruence | done].
    all: eexists [_; _]; (split; [done|]); apply saving_run; auto.
  - intros c Hc Hvalid. apply get_calendar_service_eq.
    by apply run_token_valid.
  - intros c c' Hc Hexpired Htoken Hrefresh.
    apply get_calendar_service_eq. eapply run_refreshed; eauto.
    + unfold valid. rewrite Hexpired. by destruct (token c).
    + unfold refreshable. by rewrite Hexpired, Htoken.
Qed.

(** What a run adds to the trace: refreshes, logins and writes only. *)
Lemma service_run_trace (s : state) (r : res service) (s' : state) :
  service_run W s r s' ->
  exists new : list event,
    trace s' = (trace s ++ new)%list
    /\ Forall (fun ev => match ev with
                         | ERefresh | ERunLocalServer | EWrite _ _ => True
                         | _ => False
                         end) new.
Proof.
  destruct 1;
    first [ by (exists []; rewrite app_nil_r)
          | by (eexists [_]; split; [done | repeat constructor])
          | by (eexists [_; _]; split; [done | repeat constructor]) ].
Qed.

End Credentials.

(** ** The calendar tool *)

Section Calendar.
Context `{float_runtime} (W : world).

Lemma classic_readable (event : value) :
  start_readable event \/ ~ start_readable event.
Proof.
  unfold start_readable.
  destruct event as [| | | | | | |d];
    try (right; by intros (? & ? & ? & ?)).
  destruct (assoc "start" d) as [[| | | | | | |st]|] eqn:Hst;
    try (right; intros (? & ? & [= <-] & ?); congruence).
  left. by do 2 eexists.
Qed.

Lemma success_message_readable (event : value) :
  start_readable event ->
  exists m, success_message event = Return m
            /\ starts_with "SUCCESS:" m = true.
Proof.
  intros (d & st & -> & Hst). unfold success_message. simpl.
  rewrite Hst. simpl. eexists. split; reflexivity.
Qed.

Lemma success_message_unreadable (event : value) :
  ~ start_readable event -> exists e, success_message event = Raise e.
Proof.
  intros Hno. unfold success_message.
  destruct event as [| | | | | | |d]; simpl; eauto.
  destruct (assoc "start" d) as [st|] eqn:Hst; simpl; eauto.
  destruct st; simpl; eauto.
  exfalso. apply Hno. by do 2 eexists.
Qed.

Lemma create_calendar_event_unfold (input : CreateEventInput) (s : state) :
  create_calendar_event W input s =
  match get_calendar_service W s with
  | (Return sv, s1) =>
      let s2 := {| files := files s1;
                   trace := trace s1 ++ [EInsert "primary" (event_body input)] |} in
      match events_insert W sv "primary" (event_body input) with
      | Return event =>
          match success_message event with
          | Return m => (Return m, s2)
          | Raise e =>
              (Return ("ERROR: Could not create event. Details: " +:+ exn_msg e), s2)
          end
      | Raise e =>
          (Return ("ERROR: Could not create event. Details: " +:+ exn_msg e), s2)
      end
  | (Raise e, s1) =>
      (Return ("ERROR: Could not create event. Details: " +:+ exn_msg e), s1)
  end.
Proof.
  unfold create_calendar_event, insert_event. run.
  destruct (get_calendar_service W s) as [[sv|e] s1]; [|done].
  destruct (events_insert W sv "primary" (event_body input)) as [event|e]; [|done].
  by destruct (success_message event).
Qed.

(** X20.  [create_calendar_event] always returns a string and raises
    nothing.  The string starts with "SUCCESS:" exactly when the service
    was obtained, the insert call returned and the returned event is a
    dict whose ["start"] is a dict, from which the confirmed time is read;
    in every other case (no credentials, an error of the insert call, an
    answer without such a start) it starts with "ERROR:". *)
Theorem create_calendar_event_returns (input : CreateEventInput) (s : state) :
  exists msg s',
    create_calendar_event W input s = (Return msg, s')
    /\ (starts_with "SUCCESS:" msg = true <-> created W input s)
    /\ (starts_with "ERROR:" msg = true <-> ~ created W input s).
Proof.
  rewrite create_calendar_event_unfold. unfold created.
  destruct (get_calendar_service W s) as [[sv|e] s1] eqn:Hget.
  - destruct (events_insert W sv "primary" (event_body input))
      as [event|e] eqn:Hinsert.
    + destruct (success_message event) as [m|e] eqn:Hmsg.
      * assert (Hread : start_readable event).
        { destruct (classic_readable event) as [|Hno]; [done|].
          apply success_message_unreadable in Hno as [e He]. congruence. }
        destruct (success_message_readable event Hread) as (m' & Hm' & Hs).
        assert (m' = m) as -> by congruence.
        do 2 eexists. split; [done|]. split.
        -- split; [|done]. intros _. by exists sv, s1, event.
        -- rewrite (starts_with_first_char "S" "E" "UCCESS:" "RROR:" m); [|done..].
           split; [done|]. intros Hno. destruct Hno. by exists sv, s1, event.
      * assert (Hno : ~ start_readable event).
        { intros Hread. apply success_message_readable in Hread as (? & ? & ?).
          congruence. }
        do 2 eexists. split; [done|]. split.
        -- split; [done|]. intros (sv' & s1' & event' & [= <- <-] & Hev & Hread).
           rewrite Hinsert in Hev. by injection Hev as <-.
        -- split; [|done].
           intros _ (sv' & s1' & event' & [= <- <-] & Hev & Hread).
           rewrite Hinsert in Hev. by injection Hev as <-.
    + do 2 eexists. split; [done|]. split.
      * split; [done|]. intros (sv' & s1' & event' & [= <- <-] & Hev & _).
        congruence.
      * split; [|done]. intros _ (sv' & s1' & event' & [= <- <-] & Hev & _).
        congruence.
  - do 2 eexists. split; [done|]. split.
    + split; [done|]. by intros (sv' & s1' & event' & [=] & _).
    + split; [|done]. by intros _ (sv' & s1' & event' & [=] & _).
Qed.

(** C10.  Every event body that [create_calendar_event] sends to the
    provider carries the one [timezone] of the input in both its start
    and its end, and a body is sent whenever the service is obtained; an
    input built without a time zone has "Asia/Kolkata". *)
Theorem event_time_zone (input : CreateEventInput) (s : state) :
  (exists new : list event,
     trace (snd (create_calendar_event W input s)) = (trace s ++ new)%list
     /\ (forall calendarId body, In (EInsert calendarId body) new ->
          time_zone_of body "start" = Return (VStr (timezone input))
          /\ time_zone_of body "end" = Return (VStr (timezone input)))
     /\ (forall sv s1, get_calendar_service W s = (Return sv, s1) ->
          In (EInsert "primary" (event_body input)) new))
  /\ (forall title start_time end_time,
        timezone (new_CreateEventInput title start_time end_time None)
        = "Asia/Kolkata")
  /\ (forall title start_time end_time tz,
        timezone (new_CreateEventInput title start_time end_time (Some tz))
        = tz).
Proof.
  split; [|done].
  rewrite create_calendar_event_unfold.
  destruct (get_calendar_service W s) as [r s1] eqn:Hget.
  apply get_calendar_service_run, service_run_trace in Hget
    as (new1 & Htrace & Hnew1).
  assert (Hquiet : forall calendarId body, ~ In (EInsert calendarId body) new1).
  { intros calendarId body Hin%list_elem_of_In.
    rewrite Forall_forall in Hnew1. by apply Hnew1 in Hin. }
  destruct r as [sv|e].
  - exists (new1 ++ [EInsert "primary" (event_body input)])%list.
    split; [|split].
    + rewrite app_assoc, <- Htrace.
      destruct (events_insert W sv "primary" (event_body input)) as [event|?];
        [by destruct (success_message event) | done].
    + intros calendarId body [Hin|[[= <- <-]|[]]]%in_app_or; [|done].
      by destruct (Hquiet _ _ Hin).
    + intros _ _ _. apply in_or_app. right. by left.
  - exists new1. split; [done|]. split; [|done].
    intros calendarId body Hin. by destruct (Hquiet _ _ Hin).
Qed.

End Calendar.

(** ** The weather tool *)

Section Weather.
Context `{float_runtime} (W : world).

Lemma get_weather_handler_eq (e : exn) (s : state) :
  get_weather_handler e s = (Return (error_dict (failure_message e)), s).
Proof.
  unfold get_weather_handler, failure_message, classify.
  destruct (is_HTTPError e); [done|]. by destruct (is_RequestException e).
Qed.

Lemma get_weather_unfold (city : string) (s : state) :
  get_weather W city s =
  match get_weather_body W city (add_events s [weather_called city]) with
  | (Return v, s') => (Return v, s')
  | (Raise e, s') => (Return (error_dict (failure_message e)), s')
  end.
Proof.
  unfold get_weather, get_weather_on. run.
  fold (add_events s [weather_called city]).
  destruct (get_weather_body W city _) as [[v|e] s']; [done|].
  apply get_weather_handler_eq.
Qed.

(** What [compile_report] returns, when it returns. *)
Lemma compile_report_returns
    (found_city country latitude longitude forecast_data v : value) :
  compile_report found_city country latitude longitude forecast_data = Return v ->
  exists times temperatures min_temp max_temp report hourly_data,
    series_of forecast_data = Return (times, temperatures)
    /\ py_min temperatures = Return min_temp
    /\ py_max temperatures = Return max_temp
    /\ py_list_zip times temperatures = Return hourly_data
    /\ v = VDict [("status", VStr "success");
                  ("city", found_city);
                  ("report", VStr report);
                  ("min_temperature_celsius", min_temp);
                  ("max_temperature_celsius", max_temp);
                  ("hourly_data", hourly_data)].
Proof.
  unfold compile_report, series_of. run.
  destruct (getitem_str forecast_data "hourly") as [hourly|]; [|done].
  destruct (getitem_str hourly "time") as [times|]; [|done].
  destruct (getitem_str hourly "temperature_2m") as [temperatures|]; [|done].
  destruct (py_min temperatures) as [min_temp|] eqn:Hmin; [|done].
  destruct (py_max temperatures) as [max_temp|] eqn:Hmax; [|done].
  destruct (format_2f latitude) as [lat|]; [|done].
  destruct (format_2f longitude) as [lon|]; [|done].
  destruct (py_len times) as [n|]; [|done].
  destruct (sample_lines _ _ _ _) as [report|]; [|done].
  destruct (py_list_zip times temperatures) as [hourly_data|] eqn:Hzip; [|done].
  intros [= <-]. by exists times, temperatures, min_temp, max_temp, report, hourly_data.
Qed.

(** What the [try] block returns, when it returns: the not-found answer
    after the geocoding call alone, or a compiled report after both
    calls. *)
Lemma get_weather_body_returns (city : string) (s : state) (v : value) (s' : state) :
  get_weather_body W city s = (Return v, s') ->
  (v = error_dict (not_found_message city)
   /\ s' = add_events s [EGet GEOCODING_URL (geo_params city)])
  \/ exists found_city country latitude longitude resp forecast_data,
       requests_get W FORECAST_URL (forecast_params latitude longitude) = Return resp
       /\ json_body resp = Return forecast_data
       /\ compile_report found_city country latitude longitude forecast_data
          = Return v
       /\ s' = add_events s [EGet GEOCODING_URL (geo_params city);
                             EGet FORECAST_URL (forecast_params latitude longitude)].
Proof.
  unfold get_weather_body, get. run. cbn [files trace].
  fold (add_events s [EGet GEOCODING_URL (geo_params city)]).
  destruct (requests_get W GEOCODING_URL _) as [geo_response|]; [|done].
  destruct (raise_for_status geo_response) as [[]|]; [|done].
  destruct (json_body geo_response) as [geo_data|]; [|done].
  destruct (py_get geo_data "results") as [results|]; [|done].
  destruct (truthy results).
  2: { intros [= <- <-]. by left. }
  destruct (getitem_str geo_data "results") as [rs|]; [|done].
  destruct (getitem_int rs 0) as [location|]; [|done].
  destruct (getitem_str location "latitude") as [latitude|]; [|done].
  destruct (getitem_str location "longitude") as [longitude|]; [|done].
  destruct (getitem_str location "name") as [found_city|]; [|done].
  destruct (getitem_str location "country") as [country|]; [|done].
  cbn [files trace add_events].
  destruct (requests_get W FORECAST_URL _) as [resp|] eqn:Hget; [|done].
  destruct (raise_for_status resp) as [[]|]; [|done].
  destruct (json_body resp) as [forecast_data|] eqn:Hjson; [|done].
  destruct (compile_report _ _ _ _ _) as [v'|] eqn:Hreport; [|done].
  intros [= <- <-]. right.
  exists found_city, country, latitude, longitude, resp, forecast_data.
  repeat split; try done. unfold add_events. cbn [files trace].
  by rewrite <- app_assoc.
Qed.

(** C2.  When the geocoding request is answered without results,
    [get_weather] returns the two-field error dict with the city in its
    message, raises nothing, and has made the geocoding request only: no
    request goes to the forecast endpoint. *)
Theorem get_weather_not_found (city : string) (s : state)
    (resp : response) (geo_data : value) :
  requests_get W GEOCODING_URL (geo_params city) = Return resp ->
  raise_for_status resp = Return tt ->
  json_body resp = Return geo_data ->
  no_results geo_data ->
  get_weather W city s
  = (Return (VDict [("status", VStr "error");
                    ("error_message",
                     VStr ("Sorry, could not find coordinates for '"
                           +:+ city +:+ "'."))]),
     add_events s [weather_called city; EGet GEOCODING_URL (geo_params city)])
  /\ forall p, ~ In (EGet FORECAST_URL p)
                   [weather_called city; EGet GEOCODING_URL (geo_params city)].
Proof.
  intros Hget Hstatus Hjson (d & -> & Hfalsy). split.
  - rewrite get_weather_unfold. unfold get_weather_body, get. run.
    cbn [files trace add_events]. rewrite Hget, Hstatus, Hjson.
    cbn [py_get]. rewrite Hfalsy. cbn [negb files trace].
    by rewrite <- app_assoc.
  - intros p [Hin|[Hin|[]]]; discriminate Hin.
Qed.

(** X22.  A successful call returns [min(temperatures)] and
    [max(temperatures)] of a non-empty temperature series, and
    [hourly_data] pairs the times with the temperatures up to the shorter
    of the two series: it has [min(len(times), len(temperatures))] pairs,
    which is [len(times)] whenever there are at least as many temperatures
    as times. *)
Theorem get_weather_success (city : string) (s : state) (v : value) (s' : state) :
  get_weather W city s = (Return v, s') ->
  py_get v "status" = Return (VStr "success") ->
  exists latitude longitude resp forecast_data times temperatures
         (n m : nat) min_temp max_temp hourly_data,
    requests_get W FORECAST_URL (forecast_params latitude longitude) = Return resp
    /\ json_body resp = Return forecast_data
    /\ series_of forecast_data = Return (times, temperatures)
    /\ py_len times = Return n
    /\ py_len temperatures = Return m
    /\ (0 < m)%nat
    /\ py_get v "min_temperature_celsius" = Return min_temp
    /\ py_get v "max_temperature_celsius" = Return max_temp
    /\ py_get v "hourly_data" = Return (VList hourly_data)
    /\ py_min temperatures = Return min_temp
    /\ py_max temperatures = Return max_temp
    /\ length hourly_data = Nat.min n m
    /\ ((n <= m)%nat -> length hourly_data = n).
Proof.
  rewrite get_weather_unfold.
  destruct (get_weather_body W city _) as [[v0|e] s0] eqn:Hbody;
    intros [= <- <-]; [|done].
  apply get_weather_body_returns in Hbody
    as [[-> _]|(found_city & country & latitude & longitude & resp
                & forecast_data & Hget & Hjson & Hreport & _)]; [done|].
  intros _.
  apply compile_report_returns in Hreport
    as (times & temperatures & min_temp & max_temp & report & hourly_data
        & Hseries & Hmin & Hmax & Hzip & ->).
  unfold py_list_zip in Hzip.
  destruct (py_iter times) as [xs|] eqn:Hxs; [|done].
  destruct (py_iter temperatures) as [ys|] eqn:Hys; [|done].
  injection Hzip as <-.
  exists latitude, longitude, resp, forecast_data, times, temperatures,
    (length xs), (length ys), min_temp, max_temp, (zip_items xs ys).
  repeat split; try done.
  - by apply py_iter_len.
  - by apply py_iter_len.
  - unfold py_min in Hmin. rewrite Hys in Hmin. simpl in Hmin.
    destruct ys; [done | simpl; lia].
  - apply zip_items_length.
  - intros Hle. rewrite zip_items_length. lia.
Qed.

(** The [print] of line 98 comes first: when it raises, its exception
    is the outcome of the call, and when it returns the call goes on into
    the [try] block. *)
Lemma get_weather_on_eq (out : console) (city : string) (s : state) :
  get_weather_on W out city s
  = match out ("--- Tool: get_weather called for city: " +:+ city +:+ " ---") with
    | Return _ => get_weather W city s
    | Raise e => (Raise e, s)
    end.
Proof.
  unfold get_weather, get_weather_on. run. by destruct (out _) as [[]|e].
Qed.

(** A geocoding request that raises ends the [try] block with its
    exception. *)
Lemma get_weather_body_offline (city : string) (s : state) (e : exn) :
  requests_get W GEOCODING_URL (geo_params city) = Raise e ->
  fst (get_weather_body W city s) = Raise e.
Proof.
  intros Hget. unfold get_weather_body, get. run. cbn [files trace].
  by rewrite Hget.
Qed.

(** X21.  The outcome of [get_weather] on any standard output.  An
    exception of the [print] at line 98 is raised to the caller with
    nothing requested.  When the line is written, the tool returns a dict
    and raises nothing; the dict has ["status"] "success", or it is the
    two-field dict with ["status"] "error" and an ["error_message"].  An
    exception inside the [try] block, that of a failed geocoding request
    for one, gives the two-field dict with the message of its class (HTTP
    error, other request failure, any other exception), and messages of
    different classes differ. *)
Theorem get_weather_status (out : console) (city : string) (s : state) :
  match out ("--- Tool: get_weather called for city: " +:+ city +:+ " ---") with
  | Raise e => get_weather_on W out city s = (Raise e, s)
  | Return _ =>
      exists v s',
        get_weather_on W out city s = (Return v, s')
        /\ (py_get v "status" = Return (VStr "success")
            \/ exists message,
                 v = VDict [("status", VStr "error");
                            ("error_message", VStr message)])
        /\ (forall e s1,
              get_weather_body W city (add_events s [weather_called city])
              = (Raise e, s1) ->
              v = VDict [("status", VStr "error");
                         ("error_message", VStr (failure_message e))])
        /\ (forall e,
              requests_get W GEOCODING_URL (geo_params city) = Raise e ->
              v = VDict [("status", VStr "error");
                         ("error_message", VStr (failure_message e))])
  end
  /\ (forall e1 e2, classify e1 <> classify e2 ->
                    failure_message e1 <> failure_message e2).
Proof.
  split.
  - rewrite get_weather_on_eq. destruct (out _) as [[]|e0]; [|done].
    rewrite get_weather_unfold.
    destruct (get_weather_body W city _) as [[v|e] s1] eqn:Hbody.
    + exists v, s1. split; [done|]. split; [|split; [done|]].
      * apply get_weather_body_returns in Hbody
          as [[-> _]|(found_city & country & latitude & longitude & resp
                      & forecast_data & _ & _ & Hreport & _)].
        -- right. by eexists.
        -- left. by apply compile_report_returns in Hreport
             as (? & ? & ? & ? & ? & ? & _ & _ & _ & _ & ->).
      * intros e Hget.
        apply (get_weather_body_offline city (add_events s [weather_called city]))
          in Hget.
        by rewrite Hbody in Hget.
    + eexists _, s1. split; [done|]. split; [right; by eexists|]. split.
      * by intros e' s1' [= <- <-].
      * intros e' Hget.
        apply (get_weather_body_offline city (add_events s [weather_called city]))
          in Hget.
        rewrite Hbody in Hget. by injection Hget as <-.
  - intros e1 e2. unfold failure_message.
    destruct (classify e1), (classify e2); try done; by intros _ [=].
Qed.

(** C9.  Standard output encodes ASCII only and the city is Zurich in
    its German spelling.  The [print] at line 98, which comes before the
    [try] block, raises [UnicodeEncodeError]; no [except] clause sees it,
    and [get_weather] raises it to its caller where a dict with a
    ["status"] was to be returned.  Nothing has been requested. *)
Theorem get_weather_raises_at_print (s : state) :
  get_weather_on W ascii_console zurich s
  = (Raise (Exn UnicodeEncodeError
              "'ascii' codec can't encode character '\xfc' in position 40: ordinal not in range(128)"),
     s).
Proof. rewrite get_weather_on_eq. reflexivity. Qed.

End Weather.

(** ** The news tool *)

Section News.
Context `{float_runtime} (W : world).

Lemma news_tool_handler_eq (resp : option response) (e : exn) (s : state) :
  news_tool_handler resp e s = (Return (news_failure resp e), s).
Proof.
  unfold news_tool_handler, news_failure, classify.
  destruct (is_HTTPError e); [done|]. by destruct (is_RequestException e).
Qed.

(** [news_tool] makes one request, whatever comes of it. *)
Lemma news_tool_unfold (input : NewsToolInput) (s : state) :
  news_tool W input s =
  let '(api_url, p, query_desc) := news_request input in
  let s1 := add_events s [news_called input; EGet api_url p] in
  match requests_get W api_url p with
  | Return resp =>
      match fst (news_tool_rest query_desc resp s1) with
      | Return message => (Return message, s1)
      | Raise e => (Return (news_failure (Some resp) e), s1)
      end
  | Raise e => (Return (news_failure None e), s1)
  end.
Proof.
  unfold news_tool, news_tool_on.
  destruct (news_request input) as [[api_url p] query_desc].
  unfold get, news_tool_rest. run. cbn [files trace fst].
  unfold add_events. rewrite <- app_assoc. simpl app.
  destruct (requests_get W api_url p) as [resp|e].
  - match goal with
    | |- context [match ?r with Return _ => _ | Raise _ => _ end] =>
        match r with
        | context [raise_for_status] => destruct r as [message|e]
        end
    end; [done|]. apply news_tool_handler_eq.
  - apply news_tool_handler_eq.
Qed.

(** C4.  [news_tool] sends its one request to the top-headlines endpoint,
    with the key, the country "us" and [pageSize = max_articles], when the
    query is "general" up to case, and to the everything endpoint, with
    the key, [q = query], [sortBy = "publishedAt"] and
    [pageSize = max_articles], for any other query. *)
Theorem news_tool_request (input : NewsToolInput) (s : state) :
  (eq_ignore_case (query input) "general" = true ->
   trace (snd (news_tool W input s))
   = (trace s ++ [news_called input;
                  EGet "https://newsapi.org/v2/top-headlines"
                       [("apiKey", VStr NEWS_API_KEY);
                        ("country", VStr "us");
                        ("pageSize", VInt (max_articles input))]])%list)
  /\ (eq_ignore_case (query input) "general" = false ->
      trace (snd (news_tool W input s))
      = (trace s ++ [news_called input;
                     EGet "https://newsapi.org/v2/everything"
                          [("apiKey", VStr NEWS_API_KEY);
                           ("q", VStr (query input));
                           ("sortBy", VStr "publishedAt");
                           ("pageSize", VInt (max_articles input))]])%list).
Proof.
  assert (Htrace : forall api_url p query_desc,
             news_request input = (api_url, p, query_desc) ->
             trace (snd (news_tool W input s))
             = (trace s ++ [news_called input; EGet api_url p])%list).
  { intros api_url p query_desc Hreq. rewrite news_tool_unfold, Hreq.
    destruct (requests_get W api_url p) as [resp|e]; [|done].
    cbv zeta. by destruct (fst (news_tool_rest query_desc resp _)). }
  unfold eq_ignore_case. change (lower "general") with "general".
  split; intros Hq; eapply Htrace; unfold news_request; by rewrite Hq.
Qed.

Lemma format_articles_length (items : list value) (i : nat)
    (blocks : list string) :
  format_articles i items = Return blocks -> length blocks = length items.
Proof.
  revert i blocks. induction items as [|article items IH]; intros i blocks.
  - by intros [= <-].
  - simpl. destruct (py_get_default article "title" _) as [title|]; [|done].
    destruct (py_get_default article "description" _) as [description|]; [|done].
    simpl. destruct (format_articles (S i) items) as [rest|] eqn:Hrest; [|done].
    intros [= <-]. simpl. f_equal. by eapply IH.
Qed.

(** The [try] block after the request, on an answer that passes
    [raise_for_status] and decodes to [data] with articles [articles]. *)
Lemma news_tool_rest_eq (query_desc : string) (resp : response)
    (data articles : value) (s : state) :
  raise_for_status resp = Return tt ->
  json_body resp = Return data ->
  articles_of data = Return articles ->
  fst (news_tool_rest query_desc resp s) =
  if negb (truthy articles)
  then Return ("INFO: No news articles found for " +:+ query_desc +:+ ".")
  else (let? output_list := output_list_of articles in
        let? n := py_len articles in
        Return (news_report query_desc n output_list))%res.
Proof.
  unfold articles_of, news_tool_rest, lift. intros -> -> Harticles.
  cbn [fst rbind]. rewrite Harticles. cbn [rbind].
  destruct (truthy articles); [|done]. cbn [negb].
  destruct (output_list_of articles); [|done]. cbn [rbind].
  by destruct (py_len articles).
Qed.

(** C7.  When the request is answered without an HTTP error and the
    decoded answer has no articles (the list is empty, absent or [None]),
    [news_tool] returns the "INFO:" message, which is not an "ERROR:"
    one. *)
Theorem news_tool_no_articles (input : NewsToolInput) (s : state)
    (api_url : string) (p : params) (query_desc : string)
    (resp : response) (data articles : value) :
  news_request input = (api_url, p, query_desc) ->
  requests_get W api_url p = Return resp ->
  raise_for_status resp = Return tt ->
  json_body resp = Return data ->
  articles_of data = Return articles ->
  truthy articles = false ->
  exists message,
    fst (news_tool W input s) = Return message
    /\ message = "INFO: No news articles found for " +:+ query_desc +:+ "."
    /\ starts_with "INFO:" message = true
    /\ starts_with "ERROR:" message = false.
Proof.
  intros Hreq Hget Hstatus Hjson Harticles Hfalsy.
  eexists. split; [|split; [reflexivity|done]].
  rewrite news_tool_unfold, Hreq, Hget. cbv zeta.
  rewrite (news_tool_rest_eq _ _ _ _ _ Hstatus Hjson Harticles), Hfalsy.
  done.
Qed.

(** C6, as amended.  Both branches ask the provider for
    [pageSize = max_articles], and that is the only cap: the tool never
    cuts the list it receives.  For a non-empty answer, when the
    formatting loop completes the result has one formatted block for each
    article of the answer: as many blocks as the provider sent, hence at
    most [max_articles] whenever the provider sent at most that many.
    When the loop raises, as it does at an article that is no dict, the
    result is the "ERROR:" message of the exception and has no formatted
    article. *)
Theorem news_tool_article_count (input : NewsToolInput) (s : state)
    (api_url : string) (p : params) (query_desc : string)
    (resp : response) (data articles : value) :
  news_request input = (api_url, p, query_desc) ->
  requests_get W api_url p = Return resp ->
  raise_for_status resp = Return tt ->
  json_body resp = Return data ->
  articles_of data = Return articles ->
  truthy articles = true ->
  assoc "pageSize" p = Some (VInt (max_articles input))
  /\ (forall output_list, output_list_of articles = Return output_list ->
       exists items,
         py_iter articles = Return items
         /\ length output_list = length items
         /\ fst (news_tool W input s)
            = Return (news_report query_desc (length items) output_list)
         /\ (Z.of_nat (length items) <= max_articles input ->
             Z.of_nat (length output_list) <= max_articles input))
  /\ (forall e, output_list_of articles = Raise e ->
       fst (news_tool W input s) = Return (news_failure (Some resp) e)
       /\ starts_with "ERROR:" (news_failure (Some resp) e) = true
       /\ starts_with "Top " (news_failure (Some resp) e) = false).
Proof.
  intros Hreq Hget Hstatus Hjson Harticles Htruthy.
  assert (Hrun : fst (news_tool W input s) =
                 match (let? output_list := output_list_of articles in
                        let? n := py_len articles in
                        Return (news_report query_desc n output_list))%res with
                 | Return message => Return message
                 | Raise e => Return (news_failure (Some resp) e)
                 end).
  { rewrite news_tool_unfold, Hreq, Hget. cbv zeta.
    rewrite (news_tool_rest_eq _ _ _ _ _ Hstatus Hjson Harticles), Htruthy.
    cbn [negb]. by destruct (rbind _ _). }
  split; [|split].
  - revert Hreq. unfold news_request.
    destruct (String.eqb _ _); by intros [= <- <- <-].
  - intros output_list Hout. rewrite Hrun, Hout. cbn [rbind].
    unfold output_list_of in Hout.
    destruct (py_iter articles) as [items|] eqn:Hitems; [|done].
    cbn [rbind] in Hout. apply format_articles_length in Hout.
    exists items. rewrite (py_iter_len _ _ Hitems). cbn [rbind].
    repeat split; try done. by rewrite Hout.
  - intros e Hout. rewrite Hrun, Hout. split; [done|].
    unfold news_failure. by destruct (classify e).
Qed.

End News.

(** ** The calendar tool on the reference inputs *)

(** C1.  The token is valid and the provider's insert call returns the
    event it has created, with its summary and its link and without a
    ["start"] object.  The insert has succeeded, and the tool answers with
    an "ERROR:" string, not with "SUCCESS:": [event.get('start')] is
    [None], and the [.get('dateTime')] chained to it at line 76 raises the
    [AttributeError] that the [except] clause reports. *)
Lemma insert_succeeds_yet_error :
  get_calendar_service bare_answer_world with_token
  = (Return {| service_credentials := valid_token |}, with_token)
  /\ events_insert bare_answer_world {| service_credentials := valid_token |}
                   "primary" (event_body team_meeting) = Return bare_answer
  /\ fst (create_calendar_event bare_answer_world team_meeting with_token)
     = Return "ERROR: Could not create event. Details: 'NoneType' object has no attribute 'get'"
  /\ starts_with "SUCCESS:"
       "ERROR: Could not create event. Details: 'NoneType' object has no attribute 'get'"
     = false.
Proof. repeat split; vm_compute; reflexivity. Qed.

(** C5 as stated fails: a cached token exists, and the
    missing-client-secret error is raised all the same. *)
Lemma cached_token_yet_missing_secret :
  files with_token !! TOKEN_FILE = Some "saved"
  /\ files with_token !! CREDENTIALS_FILE = None
  /\ get_calendar_service dead_token_world with_token
     = (Raise missing_secret_error, with_token).
Proof. repeat split; vm_compute; reflexivity. Qed.

(** With no token file and no client-secret file the error is raised and
    the state is unchanged. *)
Lemma missing_secret_exactly_witness :
  get_calendar_service dead_token_world no_files
  = (Raise missing_secret_error, no_files).
Proof.
  apply (missing_secret_exactly dead_token_world no_files).
  - left. apply token_absent. reflexivity.
  - reflexivity.
Defined.

(** An expired token with a refresh token is refreshed and saved. *)
Lemma token_file_written_witness :
  get_calendar_service expired_token_world with_token
  = (Return {| service_credentials := valid_token |},
     saved with_token [ERefresh; EWrite TOKEN_FILE (to_json valid_token)]
           (to_json valid_token)).
Proof.
  apply (token_file_written expired_token_world with_token) with (c := expired_token).
  - apply (token_present expired_token_world with_token "saved"). reflexivity.
  - reflexivity.
  - reflexivity.
  - reflexivity.
Defined.

(** ** The weather tool on the reference inputs *)

(** C3.  The forecast has two times and one temperature.  The call
    succeeds, and [hourly_data] holds one pair, the first time with the
    one temperature: [len(hourly_data)] is 1 where [len(times)] is 2, and
    the second time of the series is not returned. *)
Lemma fewer_pairs_than_times :
  series_of (forecast_of two_hours [VInt 5])
  = Return (VList two_hours, VList [VInt 5])
  /\ py_len (VList two_hours) = Return 2%nat
  /\ (let? v := fst (get_weather (london_world (forecast_of two_hours [VInt 5]))
                                 "London" no_files) in
      py_get v "status")%res = Return (VStr "success")
  /\ (let? v := fst (get_weather (london_world (forecast_of two_hours [VInt 5]))
                                 "London" no_files) in
      py_get v "hourly_data")%res
     = Return (VList [VTuple [VStr "2025-01-01T00:00"; VInt 5]])
  /\ (let? v := fst (get_weather (london_world (forecast_of two_hours [VInt 5]))
                                 "London" no_files) in
      let? hourly_data := py_get v "hourly_data" in
      py_len hourly_data)%res = Return 1%nat.
Proof. repeat split; vm_compute; reflexivity. Qed.

(** Four times and four temperatures: four pairs, with the least and the
    greatest of the four temperatures. *)
Lemma get_weather_success_witness :
  exists v hourly_data,
    fst (get_weather (london_world (forecast_of four_hours four_temperatures))
                     "London" no_files) = Return v
    /\ py_get v "hourly_data" = Return (VList hourly_data)
    /\ length hourly_data = 4%nat
    /\ py_get v "min_temperature_celsius" = py_min (VList four_temperatures)
    /\ py_get v "max_temperature_celsius" = py_max (VList four_temperatures).
Proof.
  destruct (get_weather (london_world (forecast_of four_hours four_temperatures))
                        "London" no_files) as [r s'] eqn:Hrun.
  assert (Hv : exists v, r = Return v /\ py_get v "status" = Return (VStr "success")).
  { vm_compute in Hrun. injection Hrun as <- _. eexists. split; reflexivity. }
  destruct Hv as (v & -> & Hstatus).
  destruct (get_weather_success _ _ _ _ _ Hrun Hstatus)
    as (latitude & longitude & resp & forecast_data & times & temperatures
        & n & m & min_temp & max_temp & hourly_data & Hget & Hjson & Hseries
        & Hn & Hm & _ & Hmin & Hmax & Hhourly & Hpmin & Hpmax & Hlen & _).
  vm_compute in Hget. destruct latitude, longitude; try discriminate Hget.
  all: injection Hget as <-; injection Hjson as <-; injection Hseries as <- <-.
  all: injection Hn as <-; injection Hm as <-.
  all: exists v, hourly_data; repeat split; try done.
  all: first [ rewrite Hmin; symmetry; exact Hpmin
             | rewrite Hmax; symmetry; exact Hpmax ].
Defined.

(** A geocoding answer with an empty list of results. *)
Lemma get_weather_not_found_witness :
  get_weather (example_world valid_token (Return (VDict []))
                             (Return (ok_response (VDict [("results", VList [])])))
                             (Raise (Exn RequestException "")))
              "Nonexistent City Xyz123" no_files
  = (Return (VDict [("status", VStr "error");
                    ("error_message",
                     VStr "Sorry, could not find coordinates for 'Nonexistent City Xyz123'.")]),
     add_events no_files
       [weather_called "Nonexistent City Xyz123";
        EGet GEOCODING_URL (geo_params "Nonexistent City Xyz123")]).
Proof.
  eapply get_weather_not_found.
  - reflexivity.
  - reflexivity.
  - reflexivity.
  - eexists. split; reflexivity.
Defined.

(** ** The news tool on the reference inputs *)

(** C6 as stated fails: asked for one article, the provider sends two,
    and both are formatted. *)
Lemma more_articles_than_asked :
  max_articles one_bitcoin = 1
  /\ (let? r := requests_get (news_world two_articles)
                             "https://newsapi.org/v2/everything"
                             [("apiKey", VStr NEWS_API_KEY);
                              ("q", VStr "bitcoin");
                              ("sortBy", VStr "publishedAt");
                              ("pageSize", VInt 1)] in
      let? data := json_body r in
      let? articles := articles_of data in
      output_list_of articles)%res = Return two_blocks
  /\ length two_blocks = 2%nat
  /\ fst (news_tool (news_world two_articles) one_bitcoin no_files)
     = Return (news_report "News about 'bitcoin'" 2 two_blocks).
Proof. repeat split; vm_compute; reflexivity. Qed.

(** The two articles of the answer give the two blocks of the result. *)
Lemma news_tool_article_count_witness :
  exists items,
    py_iter (VList [article "First" "One"; article "Second" "Two"]) = Return items
    /\ length two_blocks = length items
    /\ fst (news_tool (news_world two_articles) one_bitcoin no_files)
       = Return (news_report "News about 'bitcoin'" (length items) two_blocks)
    /\ (Z.of_nat (length items) <= max_articles one_bitcoin ->
        Z.of_nat (length two_blocks) <= max_articles one_bitcoin).
Proof.
  eapply (news_tool_article_count (news_world two_articles) one_bitcoin no_files).
  - reflexivity.
  - reflexivity.
  - reflexivity.
  - reflexivity.
  - reflexivity.
  - reflexivity.
  - reflexivity.
Defined.

(** An answer with an empty list of articles. *)
Lemma news_tool_no_articles_witness :
  exists message,
    fst (news_tool (news_world (VDict [("articles", VList [])])) general_five no_files)
    = Return message
    /\ message = "INFO: No news articles found for Top US Headlines."
    /\ starts_with "INFO:" message = true
    /\ starts_with "ERROR:" message = false.
Proof.
  eapply (news_tool_no_articles (news_world (VDict [("articles", VList [])]))
                                general_five no_files)
    with (query_desc := "Top US Headlines").
  - reflexivity.
  - reflexivity.
  - reflexivity.
  - reflexivity.
  - reflexivity.
  - reflexivity.
Defined.

(** "GENERAL" selects the headlines. *)
Lemma news_tool_request_witness :
  trace (snd (news_tool (news_world two_articles)
                        (new_NewsToolInput (Some "GENERAL") (Some 3)) no_files))
  = [news_called (new_NewsToolInput (Some "GENERAL") (Some 3));
     EGet "https://newsapi.org/v2/top-headlines"
          [("apiKey", VStr NEWS_API_KEY); ("country", VStr "us");
           ("pageSize", VInt 3)]].
Proof.
  apply (proj1 (news_tool_request (news_world two_articles)
                  (new_NewsToolInput (Some "GENERAL") (Some 3)) no_files)).
  reflexivity.
Defined.

(** The queries that select the headlines: "general" in any case of its
    letters, and nothing longer or shorter. *)
Example general_in_capitals : eq_ignore_case "General" "general" = true.
Proof. reflexivity. Qed.

Example generals_is_a_search : eq_ignore_case "generals" "general" = false.
Proof. reflexivity. Qed.

Example bitcoin_is_a_search :
  news_request one_bitcoin
  = ("https://newsapi.org/v2/everything",
     [("apiKey", VStr NEWS_API_KEY); ("q", VStr "bitcoin");
      ("sortBy", VStr "publishedAt"); ("pageSize", VInt 1)],
     "News about 'bitcoin'").
Proof. reflexivity. Qed.


(** * Further properties *)

(** ** The credential store: what a call leaves alone *)

Section Store.
Context (W : world).

(** X1.  [get_calendar_service] changes no file but the token file:
    whatever the outcome, every other path holds what it held. *)
Theorem get_calendar_service_frame (s : state) (r : res service) (s' : state)
    (path : string) :
  get_calendar_service W s = (r, s') ->
  path <> TOKEN_FILE ->
  files s' !! path = files s !! path.
Proof.
  intros Hget Hpath. apply get_calendar_service_run in Hget.
  destruct Hget; cbn [files saved add_events]; try done;
    by rewrite lookup_insert_ne.
Qed.

(** X2.  A token file that the library cannot load makes
    [get_calendar_service] raise the library's exception, with nothing
    requested and nothing written: there is no fall-back to the login,
    whether the client-secret file is there or not. *)
Theorem unreadable_token_raises (s : state) (content : string) (e : exn) :
  files s !! TOKEN_FILE = Some content ->
  from_authorized_user_info W content = Raise e ->
  get_calendar_service W s = (Raise e, s).
Proof.
  intros Hfile Hload. apply get_calendar_service_eq.
  apply run_token_unreadable. rewrite <- Hload. by apply token_present.
Qed.

(** X3.  A call makes at most one request for credentials, a refresh or
    the interactive flow, never both, and a write of the token file comes
    only right after it, as the last event.  The interactive flow runs only
    when the client-secret file exists and there is no usable token; a
    refresh only on a token loaded from the token file. *)
Theorem one_request_for_credentials (s : state) (r : res service) (s' : state) :
  get_calendar_service W s = (r, s') ->
  exists new : list event,
    trace s' = (trace s ++ new)%list
    /\ (new = []
        \/ new = [ERefresh]
        \/ new = [ERunLocalServer]
        \/ (exists content, new = [ERefresh; EWrite TOKEN_FILE content])
        \/ (exists content, new = [ERunLocalServer; EWrite TOKEN_FILE content]))
    /\ (In ERunLocalServer new ->
        is_Some (files s !! CREDENTIALS_FILE) /\ no_usable_token W s)
    /\ (In ERefresh new -> is_Some (files s !! TOKEN_FILE)).
Proof.
  intros Hget. apply get_calendar_service_run in Hget.
  assert (Hdisk : forall c, token_on_disk W s (Some (Return c)) ->
                            is_Some (files s !! TOKEN_FILE)).
  { intros c Hc. inversion Hc as [|content Hcontent]. by eexists. }
  destruct Hget;
    [exists [] | exists [] | eexists [_; _] | eexists [_] | exists []
    | exists [] | eexists [_] | eexists [_; _]];
    (split; [by rewrite ?app_nil_r|]); (split; [|split]); cbn [In];
    try (intros [?|[?|[]]]; discriminate);
    try (intros [?|[]]; discriminate);
    try (intros []); eauto 6.
Qed.

(** X4.  What a call saves serves the next call: when the library reads
    the saved text back as the same credentials and they are valid, a
    second call returns the same service and does nothing else. *)
Theorem second_call_reuses_token (s : state) (sv : service) (s' : state) :
  get_calendar_service W s = (Return sv, s') ->
  from_authorized_user_info W (to_json (service_credentials sv))
  = Return (service_credentials sv) ->
  valid (service_credentials sv) = true ->
  get_calendar_service W s' = (Return sv, s').
Proof.
  intros Hget Hback Hvalid. apply get_calendar_service_run in Hget.
  assert (Hsaved : forall new c,
             from_authorized_user_info W (to_json c) = Return c ->
             valid c = true ->
             get_calendar_service W (saved s new (to_json c))
             = (Return {| service_credentials := c |}, saved s new (to_json c))).
  { intros new c Hc Hv. apply get_calendar_service_eq.
    apply run_token_valid; [|done]. rewrite <- Hc.
    apply token_present. cbn [files saved]. apply lookup_insert_eq. }
  inversion Hget; subst; cbn [service_credentials] in *.
  - apply get_calendar_service_eq. by apply run_token_valid.
  - by apply Hsaved.
  - by apply Hsaved.
Qed.

End Store.

(** Events do not change what is on disk. *)
Lemma token_on_disk_events (W : world) (s : state) (new : list event)
    (a : option (res credentials)) :
  token_on_disk W s a -> token_on_disk W (add_events s new) a.
Proof. destruct 1; by constructor. Qed.

(** ** The calendar tool: one insert, no more *)

Section Calendar_calls.
Context `{float_runtime} (W : world).

(** X5.  [create_calendar_event] adds to what [get_calendar_service]
    does exactly one insert on the primary calendar when the service is
    obtained, whether the insert succeeds or not (no retry), and no insert
    when it is not; it writes no file of its own. *)
Theorem one_insert_after_credentials (input : CreateEventInput) (s : state) :
  files (snd (create_calendar_event W input s))
  = files (snd (get_calendar_service W s))
  /\ trace (snd (create_calendar_event W input s))
     = (trace (snd (get_calendar_service W s))
        ++ match fst (get_calendar_service W s) with
           | Return _ => [EInsert "primary" (event_body input)]
           | Raise _ => []
           end)%list.
Proof.
  rewrite create_calendar_event_unfold.
  destruct (get_calendar_service W s) as [[sv|e] s1]; cbn [fst snd].
  - destruct (events_insert W sv "primary" (event_body input)) as [event|e];
      [by destruct (success_message event) | done].
  - by rewrite app_nil_r.
Qed.

(** X6.  Nothing prevents duplicates: with a valid cached token, two
    calls with the same input send the same event body twice. *)
Theorem two_calls_two_inserts (input : CreateEventInput) (s : state)
    (c : credentials) :
  token_on_disk W s (Some (Return c)) ->
  valid c = true ->
  snd ((create_calendar_event W input ;;; create_calendar_event W input)%M s)
  = add_events s [EInsert "primary" (event_body input);
                  EInsert "primary" (event_body input)].
Proof.
  intros Hc Hvalid.
  assert (Hget : forall new, get_calendar_service W (add_events s new)
                 = (Return {| service_credentials := c |}, add_events s new)).
  { intros new. apply get_calendar_service_eq. apply run_token_valid; [|done].
    by apply token_on_disk_events. }
  assert (Honce : forall new, exists msg,
             create_calendar_event W input (add_events s new)
             = (Return msg,
                add_events s (new ++ [EInsert "primary" (event_body input)])%list)).
  { intros new. rewrite create_calendar_event_unfold, Hget.
    unfold add_events. cbn [files trace]. rewrite <- app_assoc.
    destruct (events_insert W _ "primary" (event_body input)) as [event|?];
      [destruct (success_message event)|]; by eexists. }
  unfold bind.
  destruct (Honce []) as (msg1 & Hfirst).
  replace (add_events s []) with s in Hfirst
    by (destruct s; unfold add_events; cbn; by rewrite app_nil_r).
  rewrite Hfirst. cbn [app].
  destruct (Honce [EInsert "primary" (event_body input)]) as (msg2 & Hsecond).
  cbn [app] in Hfirst.
  by rewrite Hsecond.
Qed.

End Calendar_calls.

(** ** The weather tool: requests, failures and well-formed answers *)

Lemma getitem_str_get (v : value) (k : string) (w : value) :
  getitem_str v k = Return w -> py_get v k = Return w.
Proof.
  destruct v; try done. simpl. by destruct (assoc k d) as [w'|]; intros [= <-].
Qed.

Lemma split_on_head (sep : ascii) (s : string) :
  exists h t, split_on sep s = h :: t.
Proof.
  induction s as [|c s (h & t & IH)]; simpl; [by eexists _, _|].
  destruct (Ascii.eqb c sep); [by eexists _, _|]. rewrite IH. by eexists _, _.
Qed.

(** A string with the separator in it splits in two parts at least. *)
Lemma split_on_second (sep : ascii) (s : string) :
  contains_char sep s = true ->
  exists h1 h2 t, split_on sep s = h1 :: h2 :: t.
Proof.
  induction s as [|c s IH]; simpl; [done|].
  rewrite Ascii.eqb_sym. destruct (Ascii.eqb c sep); simpl.
  - intros _. destruct (split_on_head sep s) as (h & t & ->). by eexists _, _, _.
  - intros (h1 & h2 & t & ->)%IH. by eexists _, _, _.
Qed.

Lemma range_from_below (fuel start stop step : nat) :
  Forall (fun i => (i < stop)%nat) (range_from fuel start stop step).
Proof.
  revert start. induction fuel as [|fuel IH]; intros start; simpl; [done|].
  destruct (Nat.ltb_spec start stop); [|done]. by constructor.
Qed.

Section Weather_calls.
Context `{float_runtime} (W : world).

(** The sampling loop goes through when every index is in range of both
    series and every time is a time stamp. *)
Lemma sample_lines_ok (ts xs : list value) (indices : list nat) (report : string) :
  Forall timestamp ts -> (length ts <= length xs)%nat ->
  Forall (fun i => (i < length ts)%nat) indices ->
  exists lines, sample_lines (VList ts) (VList xs) indices report = Return lines.
Proof.
  intros Hts Hlen. revert report.
  induction indices as [|i indices IH]; intros report Hin; [by eexists|].
  apply Forall_cons in Hin as [Hi Hin]. simpl.
  destruct (nth_error ts i) as [t|] eqn:Ht;
    [|apply nth_error_None in Ht; lia].
  assert (Htime : timestamp t).
  { rewrite Forall_forall in Hts. apply Hts, list_elem_of_In.
    by eapply nth_error_In. }
  destruct Htime as (stamp & -> & HT). simpl.
  destruct (split_on_second "T" stamp HT) as (date & clock & rest & ->). simpl.
  destruct (split_on_head ":" clock) as (hour & rest' & ->). simpl.
  destruct (nth_error xs i) as [x|] eqn:Hx;
    [|apply nth_error_None in Hx; lia].
  simpl. by apply IH.
Qed.

(** The [try] block once the geocoder has answered with a first result. *)
Lemma get_weather_body_geocoded (city : string) (location : value) (s : state) :
  geocoded W city location ->
  get_weather_body W city s =
  match read_location location with
  | Raise e => (Raise e, add_events s [EGet GEOCODING_URL (geo_params city)])
  | Return (latitude, longitude, found_city, country) =>
      (match requests_get W FORECAST_URL (forecast_params latitude longitude) with
       | Return resp =>
           (let? _ := raise_for_status resp in
            let? forecast_data := json_body resp in
            compile_report found_city country latitude longitude forecast_data)%res
       | Raise e => Raise e
       end,
       add_events s [EGet GEOCODING_URL (geo_params city);
                     EGet FORECAST_URL (forecast_params latitude longitude)])
  end.
Proof.
  intros (resp & geo_data & results & Hget & Hstatus & Hjson & Hresults
          & Htruthy & Hfirst).
  unfold get_weather_body, get, read_location. run. cbn [files trace].
  rewrite Hget, Hstatus, Hjson, (getitem_str_get _ _ _ Hresults), Htruthy.
  cbn [negb]. rewrite Hresults, Hfirst.
  fold (add_events s [EGet GEOCODING_URL (geo_params city)]).
  destruct (getitem_str location "latitude") as [latitude|]; [|done].
  destruct (getitem_str location "longitude") as [longitude|]; [|done].
  destruct (getitem_str location "name") as [found_city|]; [|done].
  destruct (getitem_str location "country") as [country|]; [|done].
  unfold add_events. cbn [files trace]. rewrite <- app_assoc. cbn [app].
  destruct (requests_get W FORECAST_URL _) as [fresp|]; [|done].
  destruct (raise_for_status fresp) as [[]|]; [|done].
  by destruct (json_body fresp).
Qed.

(** Where the [try] block ends: after the geocoding request alone, or
    after the forecast request for the coordinates of the first result. *)
Lemma get_weather_body_state (city : string) (s : state) (r : res value)
    (s' : state) :
  get_weather_body W city s = (r, s') ->
  s' = add_events s [EGet GEOCODING_URL (geo_params city)]
  \/ exists location latitude longitude found_city country,
       geocoded W city location
       /\ read_location location
          = Return (latitude, longitude, found_city, country)
       /\ s' = add_events s [EGet GEOCODING_URL (geo_params city);
                             EGet FORECAST_URL (forecast_params latitude longitude)].
Proof.
  destruct (requests_get W GEOCODING_URL (geo_params city)) as [resp|e] eqn:Hget.
  2: { unfold get_weather_body, get. run. rewrite Hget. intros [= <- <-]. by left. }
  destruct (raise_for_status resp) as [[]|e] eqn:Hstatus.
  2: { unfold get_weather_body, get. run. rewrite Hget, Hstatus.
       intros [= <- <-]. by left. }
  destruct (json_body resp) as [geo_data|e] eqn:Hjson.
  2: { unfold get_weather_body, get. run. rewrite Hget, Hstatus, Hjson.
       intros [= <- <-]. by left. }
  destruct (py_get geo_data "results") as [results|e] eqn:Hresults.
  2: { unfold get_weather_body, get. run. rewrite Hget, Hstatus, Hjson, Hresults.
       intros [= <- <-]. by left. }
  destruct (truthy results) eqn:Htruthy.
  2: { unfold get_weather_body, get. run.
       rewrite Hget, Hstatus, Hjson, Hresults, Htruthy. intros [= <- <-]. by left. }
  destruct (getitem_str geo_data "results") as [rs|e] eqn:Hrs.
  2: { unfold get_weather_body, get. run.
       rewrite Hget, Hstatus, Hjson, Hresults, Htruthy, Hrs.
       intros [= <- <-]. by left. }
  assert (rs = results) as ->.
  { apply getitem_str_get in Hrs. congruence. }
  destruct (getitem_int results 0) as [location|e] eqn:Hfirst.
  2: { unfold get_weather_body, get. run.
       rewrite Hget, Hstatus, Hjson, Hresults, Htruthy, Hrs, Hfirst.
       intros [= <- <-]. by left. }
  assert (Hgeo : geocoded W city location) by (by exists resp, geo_data, results).
  rewrite (get_weather_body_geocoded city location s Hgeo).
  destruct (read_location location) as [[[[latitude longitude] found_city] country]|e]
    eqn:Hread; intros [= <- <-]; [right | by left].
  by exists location, latitude, longitude, found_city, country.
Qed.

(** X7.  [get_weather] leaves the file store alone and sends at most two
    requests: the geocoding request for the city, and then, if at all, one
    forecast request, for the coordinates of the first geocoding result,
    with [hourly = temperature_2m] and [forecast_days = 1]. *)
Theorem get_weather_requests (city : string) (s : state) :
  files (snd (get_weather W city s)) = files s
  /\ (trace (snd (get_weather W city s))
      = (trace s ++ [weather_called city;
                     EGet GEOCODING_URL (geo_params city)])%list
      \/ exists location latitude longitude found_city country,
           geocoded W city location
           /\ read_location location
              = Return (latitude, longitude, found_city, country)
           /\ trace (snd (get_weather W city s))
              = (trace s ++ [weather_called city;
                             EGet GEOCODING_URL (geo_params city);
                             EGet "https://api.open-meteo.com/v1/forecast"
                                  [("latitude", latitude);
                                   ("longitude", longitude);
                                   ("hourly", VStr "temperature_2m");
                                   ("forecast_days", VInt 1)]])%list).
Proof.
  rewrite get_weather_unfold.
  destruct (get_weather_body W city _) as [r s'] eqn:Hbody.
  assert (Hsnd : snd (match r with
                      | Return v => (Return v, s')
                      | Raise e => (Return (error_dict (failure_message e)), s')
                      end) = s') by (by destruct r).
  rewrite Hsnd.
  apply get_weather_body_state in Hbody
    as [->|(location & latitude & longitude & found_city & country
            & Hgeo & Hread & ->)]; cbn [files trace add_events];
    (split; [done|]); rewrite <- app_assoc; [by left|right].
  by exists location, latitude, longitude, found_city, country.
Qed.

(** X8.  An HTTP error status (400 to 599) of the geocoding answer is
    reported as "HTTP Error: Could not fetch data. (...)", with the status
    code at the head of the detail, and stops the call before any forecast
    request. *)
Theorem geocoding_status_error (city : string) (s : state) (resp : response) :
  requests_get W GEOCODING_URL (geo_params city) = Return resp ->
  400 <= status_code resp < 600 ->
  get_weather W city s
  = (Return (VDict [("status", VStr "error");
                    ("error_message",
                     VStr ("HTTP Error: Could not fetch data. ("
                           +:+ (str_of_Z (status_code resp)
                                +:+ (if status_code resp <? 500
                                     then " Client Error: "
                                     else " Server Error: ")
                                +:+ reason resp +:+ " for url: " +:+ url resp)
                           +:+ ")"))]),
     add_events s [weather_called city; EGet GEOCODING_URL (geo_params city)]).
Proof.
  intros Hget [Hlow Hhigh].
  rewrite get_weather_unfold. unfold get_weather_body, get. run.
  cbn [files trace add_events]. rewrite Hget. unfold raise_for_status.
  destruct (Z.leb_spec 400 (status_code resp)); [|lia].
  destruct (Z.ltb_spec (status_code resp) 500); cbn [andb].
  - rewrite <- app_assoc. reflexivity.
  - destruct (Z.leb_spec 500 (status_code resp)); [|lia].
    destruct (Z.ltb_spec (status_code resp) 600); [|lia]. cbn [andb].
    rewrite <- app_assoc. reflexivity.
Qed.

(** X10.  A first result that lacks one of ["latitude"], ["longitude"],
    ["name"], ["country"] is reported as an unexpected error naming the
    first missing key, and no forecast is requested. *)
Theorem missing_location_key (city : string) (s : state)
    (l : list (string * value)) :
  geocoded W city (VDict l) ->
  Exists (fun key => assoc key l = None)
         ["latitude"; "longitude"; "name"; "country"] ->
  exists key,
    In key ["latitude"; "longitude"; "name"; "country"]
    /\ assoc key l = None
    /\ get_weather W city s
       = (Return (VDict [("status", VStr "error");
                         ("error_message",
                          VStr ("An unexpected error occurred: '"
                                +:+ key +:+ "'"))]),
          add_events s [weather_called city;
                        EGet GEOCODING_URL (geo_params city)]).
Proof.
  intros Hgeo Hmissing.
  assert (Hrun : forall key, assoc key l = None ->
             read_location (VDict l) = Raise (Exn KeyError (quote key)) ->
             get_weather W city s
             = (Return (VDict [("status", VStr "error");
                               ("error_message",
                                VStr ("An unexpected error occurred: '"
                                      +:+ key +:+ "'"))]),
                add_events s [weather_called city;
                              EGet GEOCODING_URL (geo_params city)])).
  { intros key _ Hread. rewrite get_weather_unfold.
    rewrite (get_weather_body_geocoded city _ _ Hgeo), Hread.
    unfold add_events. cbn [files trace]. by rewrite <- app_assoc. }
  unfold read_location in Hrun. cbn [getitem_str rbind] in Hrun.
  destruct (assoc "latitude" l) eqn:Hlat;
    [|exists "latitude"; split; [simpl; tauto | split; [done | by apply Hrun]]].
  destruct (assoc "longitude" l) eqn:Hlon;
    [|exists "longitude"; split; [simpl; tauto | split; [done | by apply Hrun]]].
  destruct (assoc "name" l) eqn:Hname;
    [|exists "name"; split; [simpl; tauto | split; [done | by apply Hrun]]].
  destruct (assoc "country" l) eqn:Hcountry;
    [|exists "country"; split; [simpl; tauto | split; [done | by apply Hrun]]].
  exfalso. rewrite !Exists_cons, Exists_nil in Hmissing.
  destruct Hmissing as [?|[?|[?|[?|[]]]]]; congruence.
Qed.

(** X11.  An empty temperature series is an error, not a success with
    nothing in it: [min] of the empty series raises, and the call returns
    the unexpected-error dict. *)
Theorem empty_series_is_error (city : string) (s : state)
    (location latitude longitude found_city country : value)
    (forecast_data times temperatures : value) :
  geocoded W city location ->
  read_location location = Return (latitude, longitude, found_city, country) ->
  forecast_answered W latitude longitude forecast_data ->
  series_of forecast_data = Return (times, temperatures) ->
  py_len temperatures = Return 0%nat ->
  fst (get_weather W city s)
  = Return (VDict [("status", VStr "error");
                   ("error_message",
                    VStr "An unexpected error occurred: min() arg is an empty sequence")]).
Proof.
  intros Hgeo Hread (resp & Hget & Hstatus & Hjson) Hseries Hempty.
  rewrite get_weather_unfold.
  rewrite (get_weather_body_geocoded city _ _ Hgeo), Hread, Hget, Hstatus, Hjson.
  cbn [rbind]. unfold compile_report. unfold series_of in Hseries.
  destruct (getitem_str forecast_data "hourly") as [hourly|]; [|done].
  cbn [rbind] in *.
  destruct (getitem_str hourly "time") as [times'|]; [|done].
  cbn [rbind] in *.
  destruct (getitem_str hourly "temperature_2m") as [temperatures'|]; [|done].
  cbn [rbind] in *. injection Hseries as -> ->.
  assert (Hmin : py_min temperatures
                 = Raise (Exn ValueError "min() arg is an empty sequence")).
  { unfold py_min.
    destruct temperatures as [| | | |[|c str]|[|x l]|[|x l]|[|kv d]];
      try done; discriminate Hempty. }
  by rewrite Hmin.
Qed.

(** X12.  On a well-formed answer the call succeeds.  When the first
    result has its four fields with coordinates that format, and the
    forecast holds a list of time stamps and a list of at least as many
    numbers, not empty, [get_weather] returns the success dict, with the
    city of the first result and a pair in [hourly_data] for every time. *)
Theorem well_formed_answer_succeeds (city : string) (s : state)
    (location latitude longitude found_city country : value)
    (lat lon : string) (forecast_data : value) (ts xs : list value) :
  geocoded W city location ->
  read_location location = Return (latitude, longitude, found_city, country) ->
  format_2f latitude = Return lat ->
  format_2f longitude = Return lon ->
  forecast_answered W latitude longitude forecast_data ->
  series_of forecast_data = Return (VList ts, VList xs) ->
  Forall timestamp ts ->
  all_numbers (VList xs) ->
  xs <> [] ->
  (length ts <= length xs)%nat ->
  exists report min_temp max_temp,
    fst (get_weather W city s)
    = Return (VDict [("status", VStr "success");
                     ("city", found_city);
                     ("report", VStr report);
                     ("min_temperature_celsius", min_temp);
                     ("max_temperature_celsius", max_temp);
                     ("hourly_data", VList (zip_items ts xs))])
    /\ length (zip_items ts xs) = length ts.
Proof.
  intros Hgeo Hread Hlat Hlon (resp & Hget & Hstatus & Hjson) Hseries
         Hts (l & [= <-] & Hxs) Hne Hlen.
  destruct xs as [|x xs']; [done|].
  pose proof Hxs as Hxs0. apply Forall_cons in Hxs0 as [[qx Hx] Hrest].
  destruct (min_scan_numbers xs' x qx Hx Hrest) as (min_temp & ? & Hmin & _ & _).
  destruct (max_scan_numbers xs' x qx Hx Hrest) as (max_temp & ? & Hmax & _ & _).
  rewrite get_weather_unfold.
  rewrite (get_weather_body_geocoded city _ _ Hgeo), Hread, Hget, Hstatus, Hjson.
  cbn [rbind]. unfold compile_report. unfold series_of in Hseries.
  destruct (getitem_str forecast_data "hourly") as [hourly|]; [|done].
  cbn [rbind] in *.
  destruct (getitem_str hourly "time") as [times'|]; [|done].
  cbn [rbind] in *.
  destruct (getitem_str hourly "temperature_2m") as [temperatures'|]; [|done].
  cbn [rbind] in *. injection Hseries as -> ->.
  unfold py_min, py_max. cbn [py_iter rbind]. rewrite Hmin, Hmax. cbn [rbind].
  rewrite Hlat, Hlon. cbn [rbind py_len].
  match goal with
  | |- context [sample_lines ?a ?b ?idx ?r] =>
      destruct (sample_lines_ok ts (x :: xs') idx r Hts Hlen) as (report & ->);
        [apply range_from_below|]
  end.
  cbn [rbind py_list_zip py_iter fst].
  exists report, min_temp, max_temp. split; [done|].
  rewrite zip_items_length. lia.
Qed.

End Weather_calls.

(** X9.  Only the first geocoding result counts: two worlds whose
    geocoders answer with the same first result, whatever else their
    answers hold, and whose forecast servers agree, give the same outcome
    of [get_weather]. *)
Theorem first_result_only `{float_runtime} (W W' : world) (city : string)
    (location : value) (s : state) :
  geocoded W city location ->
  geocoded W' city location ->
  (forall p, requests_get W FORECAST_URL p = requests_get W' FORECAST_URL p) ->
  get_weather W city s = get_weather W' city s.
Proof.
  intros Hgeo Hgeo' Hsame. rewrite !get_weather_unfold.
  rewrite (get_weather_body_geocoded W city location _ Hgeo).
  rewrite (get_weather_body_geocoded W' city location _ Hgeo').
  destruct (read_location location)
    as [[[[latitude longitude] found_city] country]|e]; [|done].
  by rewrite Hsame.
Qed.


(** ** The news tool: outcomes and formatting *)

Lemma lower_ascii_small (c l : ascii) :
  small_letter l ->
  lower_ascii c = l <-> c = l \/ (nat_of_ascii c + 32)%nat = nat_of_ascii l.
Proof.
  unfold small_letter, lower_ascii. intros Hl.
  pose proof (nat_ascii_bounded c) as Hc.
  destruct ((65 <=? nat_of_ascii c)%nat && (nat_of_ascii c <=? 90)%nat
            || (192 <=? nat_of_ascii c)%nat && (nat_of_ascii c <=? 222)%nat
               && negb (nat_of_ascii c =? 215)%nat) eqn:Hcase.
  - rewrite orb_true_iff, !andb_true_iff, negb_true_iff, !Nat.leb_le,
      Nat.eqb_neq in Hcase.
    split.
    + intros <-. right. rewrite nat_ascii_embedding; lia.
    + intros [->|Hup]; [lia|]. rewrite Hup. apply ascii_nat_embedding.
  - rewrite orb_false_iff, !andb_false_iff, negb_false_iff, !Nat.leb_gt,
      Nat.eqb_eq in Hcase.
    split; [by left|]. intros [->|Hup]; [done | lia].
Qed.

Lemma lower_spells (word q : string) :
  Forall small_letter (list_ascii_of_string word) ->
  lower q = word <-> spells word q.
Proof.
  unfold spells. revert q.
  induction word as [|l word IH]; intros [|c q] Hword; simpl in *.
  - split; [constructor | done].
  - split; [done | intros Hf; inversion Hf].
  - split; [done | intros Hf; inversion Hf].
  - apply Forall_cons in Hword as [Hl Hword]. split.
    + intros [= Hc Hq]. constructor; [by apply lower_ascii_small | by apply IH].
    + intros Hf. inversion Hf as [|? ? ? ? Hc Hq]; subst.
      f_equal; [by apply lower_ascii_small | by apply IH].
Qed.

Section News_calls.
Context `{float_runtime} (W : world).

Lemma news_failure_starts (resp : option response) (e : exn) :
  starts_with "ERROR:" (news_failure resp e) = true.
Proof. unfold news_failure. by destruct (classify e). Qed.

Lemma news_request_eta (input : NewsToolInput) :
  news_request input = (news_url input, news_params input, news_desc input).
Proof.
  unfold news_url, news_params, news_desc.
  by destruct (news_request input) as [[? ?] ?].
Qed.

(** The blocks of a list of dicts. *)
Lemma format_articles_dicts (ds : list (list (string * value))) (i : nat) :
  format_articles i (map VDict ds)
  = Return (imap (fun k => article_block (i + k)) ds).
Proof.
  revert i. induction ds as [|d ds IH]; intros i; [done|].
  simpl. rewrite IH. simpl. unfold article_block at 1.
  rewrite Nat.add_0_r. do 2 f_equal.
  apply imap_ext. intros k d' _. unfold article_block. cbn [compose].
  by replace (S (i + k) + 1)%nat with (i + S k + 1)%nat by lia.
Qed.

(** One article that is no dict stops the formatting. *)
Lemma format_articles_not_a_dict (items : list value) (i : nat) :
  Exists not_a_dict items ->
  exists a, In a items /\ not_a_dict a
            /\ format_articles i items
               = Raise (Exn AttributeError
                          (quote (type_name a) +:+ " object has no attribute 'get'")).
Proof.
  revert i. induction items as [|a items IH]; intros i Hex;
    [by apply Exists_nil in Hex|].
  destruct a as [| | | | | | |d];
    try (eexists; split; [by left|]; split; [by intros ?|done]).
  apply Exists_cons in Hex as [Hbad|Hex]; [by destruct (Hbad d)|].
  destruct (IH (S i) Hex) as (a & Hin & Hbad & Hraise).
  exists a. split; [by right|]. split; [done|].
  simpl. by rewrite Hraise.
Qed.

(** The [print] of line 198 comes first: when it raises, its exception
    is the outcome of the call, and when it returns the call goes on into
    the [try] block. *)
Lemma news_tool_on_eq (out : console) (input : NewsToolInput) (s : state) :
  news_tool_on W out input s
  = match out ("--- Tool: news_tool called for query: " +:+ query input +:+ " ---") with
    | Return _ => news_tool W input s
    | Raise e => (Raise e, s)
    end.
Proof.
  unfold news_tool, news_tool_on. run. by destruct (out _) as [[]|e].
Qed.

(** X13.  The outcome of [news_tool] on any standard output.  An
    exception of the [print] at line 198 is raised to the caller with
    nothing requested.  When the line is written, the tool returns a
    string and raises nothing; the string starts with "Top " (a result),
    "INFO:" (no articles) or "ERROR:" (a failure), and the file store is
    left alone. *)
Theorem news_tool_returns (out : console) (input : NewsToolInput) (s : state) :
  match out ("--- Tool: news_tool called for query: " +:+ query input +:+ " ---") with
  | Raise e => news_tool_on W out input s = (Raise e, s)
  | Return _ =>
      exists message s',
        news_tool_on W out input s = (Return message, s')
        /\ files s' = files s
        /\ (starts_with "Top " message = true
            \/ starts_with "INFO:" message = true
            \/ starts_with "ERROR:" message = true)
  end.
Proof.
  rewrite news_tool_on_eq. destruct (out _) as [[]|e0]; [|done].
  rewrite news_tool_unfold.
  destruct (news_request input) as [[api_url p] query_desc]. cbv zeta.
  destruct (requests_get W api_url p) as [resp|e].
  - unfold news_tool_rest, lift. cbn [fst].
    destruct (raise_for_status resp) as [[]|e]; cbn [rbind].
    2: { do 2 eexists. split; [done|]. split; [done|].
         right. right. apply news_failure_starts. }
    destruct (json_body resp) as [data|e]; cbn [rbind].
    2: { do 2 eexists. split; [done|]. split; [done|].
         right. right. apply news_failure_starts. }
    destruct (py_get_default data "articles" (VList [])) as [articles|e];
      cbn [rbind].
    2: { do 2 eexists. split; [done|]. split; [done|].
         right. right. apply news_failure_starts. }
    destruct (truthy articles); cbn [negb].
    2: { do 2 eexists. split; [done|]. split; [done|]. right. by left. }
    destruct (output_list_of articles) as [output_list|e]; cbn [rbind].
    2: { do 2 eexists. split; [done|]. split; [done|].
         right. right. apply news_failure_starts. }
    destruct (py_len articles) as [n|e]; cbn [rbind].
    2: { do 2 eexists. split; [done|]. split; [done|].
         right. right. apply news_failure_starts. }
    do 2 eexists. split; [done|]. split; [done|]. by left.
  - do 2 eexists. split; [done|]. split; [done|].
    right. right. apply news_failure_starts.
Qed.

(** X14.  An HTTP error status (400 to 599) of the answer is reported
    with the status code and the body of the answer: "ERROR: HTTP Error
    accessing News API. Status Code: <code>. Details: <text>". *)
Theorem news_status_error (input : NewsToolInput) (s : state) (resp : response) :
  requests_get W (news_url input) (news_params input) = Return resp ->
  400 <= status_code resp < 600 ->
  fst (news_tool W input s)
  = Return ("ERROR: HTTP Error accessing News API. Status Code: "
            +:+ str_of_Z (status_code resp) +:+ ". Details: " +:+ text resp).
Proof.
  intros Hget [Hlow Hhigh].
  rewrite news_tool_unfold, news_request_eta, Hget. cbv zeta.
  unfold news_tool_rest, lift, raise_for_status. cbn [fst].
  destruct (Z.leb_spec 400 (status_code resp)); [|lia].
  destruct (Z.ltb_spec (status_code resp) 500); cbn [andb rbind]; [done|].
  destruct (Z.leb_spec 500 (status_code resp)); [|lia].
  destruct (Z.ltb_spec (status_code resp) 600); [|lia]. done.
Qed.

(** X15.  A request that fails before there is any answer is reported
    without a status code: an [HTTPError] as "Status Code: N/A" with the
    text of the exception, any other exception of [requests] as the
    connection error, and anything else as an unexpected error with its
    text. *)
Theorem news_request_fails (input : NewsToolInput) (s : state) (e : exn) :
  requests_get W (news_url input) (news_params input) = Raise e ->
  fst (news_tool W input s)
  = Return (match exn_cls e with
            | HTTPError =>
                "ERROR: HTTP Error accessing News API. Status Code: N/A. Details: "
                +:+ exn_msg e
            | RequestException =>
                "ERROR: Connection Error: Could not connect to the News API server."
            | _ =>
                "ERROR: An unexpected error occurred in news_tool: " +:+ exn_msg e
            end).
Proof.
  intros Hget. rewrite news_tool_unfold, news_request_eta, Hget. cbv zeta.
  unfold news_failure, classify, is_HTTPError, is_RequestException.
  by destruct (exn_cls e).
Qed.

(** X16.  A non-empty list of articles that are all dicts is always
    formatted: the result is the header with their number, then one block
    for each article in the order of the answer, numbered from 1, where a
    missing title or description reads "N/A". *)
Theorem dict_articles_formatted (input : NewsToolInput) (s : state)
    (data : value) (ds : list (list (string * value))) :
  news_answered W input data ->
  articles_of data = Return (VList (map VDict ds)) ->
  ds <> [] ->
  fst (news_tool W input s)
  = Return (news_report (news_desc input) (length ds) (imap article_block ds)).
Proof.
  intros (resp & Hget & Hstatus & Hjson) Harticles Hne.
  rewrite news_tool_unfold, news_request_eta, Hget. cbv zeta.
  rewrite (news_tool_rest_eq _ _ _ _ _ Hstatus Hjson Harticles).
  assert (Htruthy : truthy (VList (map VDict ds)) = true) by (by destruct ds).
  rewrite Htruthy. cbn [negb].
  unfold output_list_of. cbn [py_iter rbind].
  rewrite (format_articles_dicts ds 0). cbn [rbind py_len].
  by rewrite length_map.
Qed.

(** X17.  One article that is no dict spoils the whole result: nothing
    formatted so far is returned, only the unexpected-error message for
    the first offending article. *)
Theorem one_bad_article (input : NewsToolInput) (s : state)
    (data : value) (items : list value) :
  news_answered W input data ->
  articles_of data = Return (VList items) ->
  Exists not_a_dict items ->
  exists a,
    In a items /\ not_a_dict a
    /\ fst (news_tool W input s)
       = Return ("ERROR: An unexpected error occurred in news_tool: "
                 +:+ quote (type_name a) +:+ " object has no attribute 'get'").
Proof.
  intros (resp & Hget & Hstatus & Hjson) Harticles Hbad.
  destruct (format_articles_not_a_dict items 0 Hbad) as (a & Hin & Hnot & Hraise).
  exists a. split; [done|]. split; [done|].
  rewrite news_tool_unfold, news_request_eta, Hget. cbv zeta.
  rewrite (news_tool_rest_eq _ _ _ _ _ Hstatus Hjson Harticles).
  destruct items as [|a0 items]; [by apply Exists_nil in Hbad|].
  cbn [truthy negb]. unfold output_list_of. cbn [py_iter rbind].
  by rewrite Hraise.
Qed.

(** X18.  The headlines endpoint is chosen exactly for the queries that
    spell "general" letter by letter up to case (nothing is trimmed); every
    other query is a search. *)
Theorem headlines_spelling (input : NewsToolInput) :
  (news_url input = "https://newsapi.org/v2/top-headlines"
   <-> spells "general" (query input))
  /\ (news_url input = "https://newsapi.org/v2/everything"
      <-> ~ spells "general" (query input)).
Proof.
  assert (Hsmall : Forall small_letter (list_ascii_of_string "general")).
  { repeat constructor; unfold small_letter; simpl; lia. }
  pose proof (lower_spells "general" (query input) Hsmall) as Hspell.
  unfold news_url, news_request.
  destruct (String.eqb_spec (lower (query input)) "general") as [Heq|Hne];
    cbn [fst].
  - split; (split; [intros Hurl | intros Hs]); try done; [by apply Hspell|].
    destruct Hs. by apply Hspell.
  - split; (split; [intros Hurl | intros Hs]); try done.
    + destruct Hne. by apply Hspell.
    + intros Hs. destruct Hne. by apply Hspell.
Qed.

End News_calls.

(** ** The hour shown in a report line *)

Lemma split_on_prefix (sep : ascii) (a b : string) :
  contains_char sep a = false ->
  exists h t, split_on sep b = h :: t
              /\ split_on sep (a +:+ b) = (a +:+ h) :: t.
Proof.
  induction a as [|c a IH]; simpl.
  - intros _. destruct (split_on_head sep b) as (h & t & Hb). by exists h, t.
  - rewrite Ascii.eqb_sym. destruct (Ascii.eqb c sep); [done|]. simpl.
    intros (h & t & Hb & ->)%IH. by exists h, t.
Qed.

(** Up to the first separator. *)
Lemma split_on_cut (sep : ascii) (a b : string) :
  contains_char sep a = false ->
  split_on sep (a +:+ String sep b) = a :: split_on sep b.
Proof.
  induction a as [|c a IH]; simpl.
  - intros _. by rewrite Ascii.eqb_refl.
  - rewrite Ascii.eqb_sym. destruct (Ascii.eqb c sep); [done|]. simpl.
    intros Ha. by rewrite (IH Ha).
Qed.

Section Report_lines.
Context `{float_runtime}.

(** X19.  A sampled line shows the hour of its time stamp: for a time of
    the form [date "T" hour ":" rest], with no "T" in the date and neither
    "T" nor ":" in the hour, the line added to the report is
    ["  " hour "h: " temperature "°C"] and a line feed. *)
Theorem sampled_line_shows_hour (ts xs : list value) (i : nat)
    (date hour rest : string) (x : value) (report : string) :
  nth_error ts i = Some (VStr (date +:+ "T" +:+ hour +:+ ":" +:+ rest)) ->
  nth_error xs i = Some x ->
  contains_char "T" date = false ->
  contains_char "T" hour = false ->
  contains_char ":" hour = false ->
  sample_lines (VList ts) (VList xs) [i] report
  = Return (report +:+ "  " +:+ hour +:+ "h: " +:+ py_str x
            +:+ degree +:+ "C" +:+ nl).
Proof.
  intros Ht Hx Hdate HhourT Hhour.
  destruct (split_on_head "T" rest) as (h1 & t1 & Hrest).
  assert (Hsplit : split_on "T" (date +:+ "T" +:+ hour +:+ ":" +:+ rest)
                   = date :: (hour +:+ ":" +:+ h1) :: t1).
  { change (date +:+ "T" +:+ hour +:+ ":" +:+ rest)
      with (date +:+ String "T" (hour +:+ String ":" rest)).
    rewrite split_on_cut by done. f_equal.
    destruct (split_on_prefix "T" hour (String ":" rest) HhourT)
      as (h & t & Hcolon & ->).
    simpl in Hcolon. rewrite Hrest in Hcolon. by injection Hcolon as <- <-. }
  assert (Hclock : split_on ":" (hour +:+ ":" +:+ h1) = hour :: split_on ":" h1)
    by (by apply split_on_cut).
  cbn [sample_lines getitem_int rbind]. rewrite Ht. cbn [rbind py_split].
  rewrite Hsplit. cbn [rbind nth_str nth_error]. rewrite Hclock.
  cbn [rbind nth_str nth_error]. by rewrite Hx.
Qed.

End Report_lines.

(** ** The further properties on the reference inputs *)

Lemma get_calendar_service_frame_witness :
  files (snd (get_calendar_service expired_token_world with_both))
    !! CREDENTIALS_FILE
  = files with_both !! CREDENTIALS_FILE.
Proof.
  eapply get_calendar_service_frame.
  - apply surjective_pairing.
  - discriminate.
Defined.

Lemma unreadable_token_raises_witness :
  get_calendar_service broken_token_world with_both
  = (Raise (Exn ValueError "Expecting value: line 1 column 1 (char 0)"),
     with_both).
Proof.
  apply (unreadable_token_raises broken_token_world with_both "garbled").
  - reflexivity.
  - reflexivity.
Defined.

Lemma one_request_for_credentials_witness :
  exists new : list event,
    trace (snd (get_calendar_service expired_token_world with_token))
    = (trace with_token ++ new)%list
    /\ (new = []
        \/ new = [ERefresh]
        \/ new = [ERunLocalServer]
        \/ (exists content, new = [ERefresh; EWrite TOKEN_FILE content])
        \/ (exists content, new = [ERunLocalServer; EWrite TOKEN_FILE content]))
    /\ (In ERunLocalServer new ->
        is_Some (files with_token !! CREDENTIALS_FILE)
        /\ no_usable_token expired_token_world with_token)
    /\ (In ERefresh new -> is_Some (files with_token !! TOKEN_FILE)).
Proof.
  eapply one_request_for_credentials. apply surjective_pairing.
Defined.

Lemma second_call_reuses_token_witness :
  get_calendar_service round_trip_world
    (saved with_token [ERefresh; EWrite TOKEN_FILE (to_json valid_token)]
           (to_json valid_token))
  = (Return {| service_credentials := valid_token |},
     saved with_token [ERefresh; EWrite TOKEN_FILE (to_json valid_token)]
           (to_json valid_token)).
Proof.
  apply (second_call_reuses_token round_trip_world with_token).
  - vm_compute. reflexivity.
  - reflexivity.
  - reflexivity.
Defined.

Lemma two_calls_two_inserts_witness :
  snd ((create_calendar_event bare_answer_world team_meeting ;;;
        create_calendar_event bare_answer_world team_meeting)%M with_token)
  = add_events with_token [EInsert "primary" (event_body team_meeting);
                           EInsert "primary" (event_body team_meeting)].
Proof.
  apply two_calls_two_inserts with (c := valid_token).
  - apply (token_present bare_answer_world with_token "saved"). reflexivity.
  - reflexivity.
Defined.

Lemma geocoding_status_error_witness :
  get_weather not_found_world "London" no_files
  = (Return (VDict [("status", VStr "error");
                    ("error_message",
                     VStr "HTTP Error: Could not fetch data. (404 Client Error: Not Found for url: https://example.org/)")]),
     add_events no_files [weather_called "London";
                          EGet GEOCODING_URL (geo_params "London")]).
Proof.
  apply (geocoding_status_error not_found_world "London" no_files
           (status_response 404 "Not Found" "no such page")).
  - reflexivity.
  - simpl. lia.
Defined.

Lemma first_result_only_witness :
  get_weather (london_world (forecast_of four_hours four_temperatures))
              "London" no_files
  = get_weather (two_londons_world (forecast_of four_hours four_temperatures))
                "London" no_files.
Proof.
  apply first_result_only with (location := london_location).
  - eexists _, _, _. repeat split; reflexivity.
  - eexists _, _, _. repeat split; reflexivity.
  - reflexivity.
Defined.

Lemma missing_location_key_witness :
  exists key,
    In key ["latitude"; "longitude"; "name"; "country"]
    /\ assoc key [("name", VStr "Atlantis")] = None
    /\ get_weather nameless_world "Atlantis" no_files
       = (Return (VDict [("status", VStr "error");
                         ("error_message",
                          VStr ("An unexpected error occurred: '"
                                +:+ key +:+ "'"))]),
          add_events no_files [weather_called "Atlantis";
                               EGet GEOCODING_URL (geo_params "Atlantis")]).
Proof.
  apply missing_location_key.
  - eexists _, _, _. repeat split; reflexivity.
  - apply Exists_cons_hd. reflexivity.
Defined.

Lemma empty_series_is_error_witness :
  fst (get_weather (london_world (forecast_of two_hours [])) "London" no_files)
  = Return (VDict [("status", VStr "error");
                   ("error_message",
                    VStr "An unexpected error occurred: min() arg is an empty sequence")]).
Proof.
  eapply (empty_series_is_error (london_world (forecast_of two_hours []))
            "London" no_files london_location).
  - eexists _, _, _. repeat split; reflexivity.
  - reflexivity.
  - eexists. repeat split; reflexivity.
  - reflexivity.
  - reflexivity.
Defined.

Lemma well_formed_answer_succeeds_witness :
  exists report min_temp max_temp,
    fst (get_weather (london_world (forecast_of four_hours four_temperatures))
                     "London" no_files)
    = Return (VDict [("status", VStr "success");
                     ("city", VStr "London");
                     ("report", VStr report);
                     ("min_temperature_celsius", min_temp);
                     ("max_temperature_celsius", max_temp);
                     ("hourly_data",
                      VList (zip_items four_hours four_temperatures))])
    /\ length (zip_items four_hours four_temperatures) = length four_hours.
Proof.
  eapply (well_formed_answer_succeeds
            (london_world (forecast_of four_hours four_temperatures))
            "London" no_files london_location).
  - eexists _, _, _. repeat split; reflexivity.
  - reflexivity.
  - reflexivity.
  - reflexivity.
  - eexists. repeat split; reflexivity.
  - reflexivity.
  - repeat constructor; eexists; split; reflexivity.
  - eexists. split; [reflexivity|]. repeat constructor; by eexists.
  - discriminate.
  - simpl. lia.
Defined.

Lemma news_status_error_witness :
  fst (news_tool not_found_world one_bitcoin no_files)
  = Return "ERROR: HTTP Error accessing News API. Status Code: 404. Details: no such page".
Proof.
  apply (news_status_error not_found_world one_bitcoin no_files
           (status_response 404 "Not Found" "no such page")).
  - reflexivity.
  - simpl. lia.
Defined.

Lemma news_request_fails_witness :
  fst (news_tool offline_world one_bitcoin no_files)
  = Return "ERROR: Connection Error: Could not connect to the News API server.".
Proof.
  apply (news_request_fails offline_world one_bitcoin no_files
           (Exn RequestException "Max retries exceeded")).
  reflexivity.
Defined.

Lemma dict_articles_formatted_witness :
  fst (news_tool (news_world (VDict [("articles", VList (map VDict two_dicts))]))
                 one_bitcoin no_files)
  = Return (news_report "News about 'bitcoin'" 2
              ["--- Article 1 ---" +:+ nl +:+ "Title: First" +:+ nl
               +:+ "Description: One";
               "--- Article 2 ---" +:+ nl +:+ "Title: Second" +:+ nl
               +:+ "Description: N/A"]).
Proof.
  apply (dict_articles_formatted
           (news_world (VDict [("articles", VList (map VDict two_dicts))]))
           one_bitcoin no_files
           (VDict [("articles", VList (map VDict two_dicts))]) two_dicts).
  - eexists. repeat split; reflexivity.
  - reflexivity.
  - discriminate.
Defined.

Lemma one_bad_article_witness :
  exists a,
    In a [article "First" "One"; VStr "Second"] /\ not_a_dict a
    /\ fst (news_tool (news_world
                         (VDict [("articles",
                                  VList [article "First" "One"; VStr "Second"])]))
                      one_bitcoin no_files)
       = Return ("ERROR: An unexpected error occurred in news_tool: "
                 +:+ quote (type_name a) +:+ " object has no attribute 'get'").
Proof.
  eapply one_bad_article.
  - eexists. repeat split; reflexivity.
  - reflexivity.
  - apply Exists_cons_tl, Exists_cons_hd. by intros d.
Defined.

Lemma sampled_line_shows_hour_witness :
  sample_lines (VList four_hours) (VList four_temperatures) [2%nat] "Hourly:"
  = Return ("Hourly:" +:+ "  " +:+ "02" +:+ "h: " +:+ "4"
            +:+ degree +:+ "C" +:+ nl).
Proof.
  apply (sampled_line_shows_hour four_hours four_temperatures 2
           "2025-01-01" "02" "00" (VInt 4) "Hourly:").
  - reflexivity.
  - reflexivity.
  - reflexivity.
  - reflexivity.
  - reflexivity.
Defined.

